(** * aisuite search layer: a shallow embedding

    The development follows the Python sources
      - [aisuite/search_provider.py]   (result record, registry/factory),
      - [aisuite/search_providers/*_search_provider.py] (three adapters),
      - [aisuite/search_client.py]     (the caller-facing client),
    and states the properties of the specification over that embedding.

    Python values coming from decoded JSON are modelled by [pyval]; an
    exception is a value of [exn]; code that may raise returns [res];
    code that also touches process-wide state (the memoised registry scan,
    the shared default dictionary, the network) lives in the monad [M]. *)

From Stdlib Require Import ZArith String Ascii List Bool DecimalString.
From stdpp Require Import base option list gmap strings.

Local Open Scope string_scope.
Set Warnings "-register-all".

(** ** Python values *)

(** Decoded JSON as Python sees it.  A [dict] keeps insertion order, which is
    what iteration over it observes; keys are unique in a real dict, and
    [dict_set] below preserves that.  JSON floats are not represented. *)
Inductive pyval : Type :=
| PNone
| PBool (b : bool)
| PInt (n : Z)
| PStr (s : string)
| PList (items : list pyval)
| PDict (entries : list (string * pyval)).

Abbreviation dict := (list (string * pyval)).

Inductive exn : Type :=
| ValueError (msg : string)
| TypeError
| AttributeError
| ImportError (msg : string)
| KeyError
| TransportError (detail : string).

Inductive res (A : Type) : Type :=
| Ok (a : A)
| Raise (e : exn).
Arguments Ok {A} a.
Arguments Raise {A} e.

Definition res_bind {A B} (r : res A) (k : A -> res B) : res B :=
  match r with
  | Ok a => k a
  | Raise e => Raise e
  end.

#[global] Instance res_ret : MRet res := fun A a => Ok a.
#[global] Instance res_mbind : MBind res := fun A B k r => res_bind r k.

Fixpoint res_map {A B} (f : A -> res B) (l : list A) : res (list B) :=
  match l with
  | [] => Ok []
  | a :: l' =>
      b ← f a;
      bs ← res_map f l';
      Ok (b :: bs)
  end.

(** [bool(v)] *)
Definition truthy (v : pyval) : bool :=
  match v with
  | PNone => false
  | PBool b => b
  | PInt n => negb (n =? 0)%Z
  | PStr s => negb (s =? "")
  | PList l => match l with [] => false | _ => true end
  | PDict d => match d with [] => false | _ => true end
  end.

(** [a or b] *)
Definition py_or (a : pyval) (b : res pyval) : res pyval :=
  if truthy a then Ok a else b.

Fixpoint dict_get (k : string) (d : dict) : option pyval :=
  match d with
  | [] => None
  | (k', v) :: d' => if k' =? k then Some v else dict_get k d'
  end.

(** [d[k] = v]: an existing key keeps its position. *)
Fixpoint dict_set (k : string) (v : pyval) (d : dict) : dict :=
  match d with
  | [] => [(k, v)]
  | (k', v') :: d' =>
      if k' =? k then (k, v) :: d' else (k', v') :: dict_set k v d'
  end.

(** [d.update(e)], also the meaning of [{**d, **e}]. *)
Definition dict_update (d e : dict) : dict :=
  fold_left (fun acc kv => dict_set (fst kv) (snd kv) acc) e d.

(** [v.get(k, default)]: only a dict has the method. *)
Definition py_get (v : pyval) (k : string) (default : pyval) : res pyval :=
  match v with
  | PDict d => Ok (match dict_get k d with Some x => x | None => default end)
  | _ => Raise AttributeError
  end.

(** A [str] is held as its UTF-8 bytes; a byte [10xxxxxx] continues the
    character begun before it. *)
Definition is_continuation (c : ascii) : bool :=
  let n := nat_of_ascii c in (128 <=? n)%nat && (n <? 192)%nat.

Definition starts_with_continuation (s : string) : bool :=
  match s with
  | EmptyString => false
  | String c _ => is_continuation c
  end.

Fixpoint continuation_prefix (s : string) : string :=
  match s with
  | EmptyString => ""
  | String c s' =>
      if is_continuation c then String c (continuation_prefix s') else ""
  end.

(** The characters (code points) of a string, each as a string. *)
Fixpoint chars (s : string) : list pyval :=
  match s with
  | EmptyString => []
  | String c s' =>
      match chars s' with
      | PStr t :: rest =>
          if starts_with_continuation s'
          then PStr (String c t) :: rest
          else PStr (String c EmptyString) :: PStr t :: rest
      | rest => PStr (String c EmptyString) :: rest
      end
  end.

(** [for x in v]: the items a loop over [v] sees. *)
Definition py_iter (v : pyval) : res (list pyval) :=
  match v with
  | PList l => Ok l
  | PStr s => Ok (chars s)
  | PDict d => Ok (map (fun kv => PStr (fst kv)) d)
  | PNone | PBool _ | PInt _ => Raise TypeError
  end.

Definition as_str (v : pyval) : res string :=
  match v with
  | PStr s => Ok s
  | _ => Raise TypeError
  end.

(** [sep.join(v)] *)
Definition py_join (sep : string) (v : pyval) : res pyval :=
  items ← py_iter v;
  strs ← res_map as_str items;
  Ok (PStr (String.concat sep strs)).

(** The builtins the embedding leaves abstract: [repr] of a value and of a
    set of strings (quoting of strings follows the Unicode tables, and the
    element order of a set follows the per-process hash seed). *)
Class PyBuiltins : Type := {
  py_repr : pyval -> string;
  set_repr : gset string -> string
}.

Definition int_str (n : Z) : string := NilZero.string_of_int (Z.to_int n).

(** [str(v)], which is what an f-string field [{v}] renders. *)
Definition py_str `{PyBuiltins} (v : pyval) : string :=
  match v with
  | PStr s => s
  | PNone => "None"
  | PBool true => "True"
  | PBool false => "False"
  | PInt n => int_str n
  | PList _ | PDict _ => py_repr v
  end.

(** ** Python string methods used by the sources *)

(** [s.partition(":")]: head, separator found, tail. *)
Fixpoint partition_colon (s : string) : string * string * string :=
  match s with
  | EmptyString => ("", "", "")
  | String c s' =>
      if Ascii.eqb c ":"%char then ("", ":", s')
      else let '(h, sep, t) := partition_colon s' in (String c h, sep, t)
  end.

(** [s.endswith(suf)] *)
Fixpoint ends_with (suf s : string) : bool :=
  (s =? suf) ||
  match s with
  | EmptyString => false
  | String _ s' => ends_with suf s'
  end.

(** [s.rfind(c)] for a one-character [c]. *)
Fixpoint rfind (c : ascii) (s : string) : option nat :=
  match s with
  | EmptyString => None
  | String a s' =>
      match rfind c s' with
      | Some j => Some (S j)
      | None => if Ascii.eqb a c then Some 0 else None
      end
  end.

(** [s.replace(old, "")]: every occurrence, scanning left to right;
    [skip] counts the characters of a match still to be dropped. *)
Fixpoint remove_from (old : string) (skip : nat) (s : string) : string :=
  match s with
  | EmptyString => ""
  | String c s' =>
      match skip with
      | S k => remove_from old k s'
      | O =>
          if String.prefix old s
          then remove_from old (String.length old - 1) s'
          else String c (remove_from old 0 s')
      end
  end.

Definition str_remove (old s : string) : string :=
  if old =? "" then s else remove_from old 0 s.

Definition upper (c : ascii) : ascii :=
  let n := nat_of_ascii c in
  if (97 <=? n)%nat && (n <=? 122)%nat then ascii_of_nat (n - 32) else c.

Definition lower (c : ascii) : ascii :=
  let n := nat_of_ascii c in
  if (65 <=? n)%nat && (n <=? 90)%nat then ascii_of_nat (n + 32) else c.

Fixpoint str_map (f : ascii -> ascii) (s : string) : string :=
  match s with
  | EmptyString => ""
  | String c s' => String (f c) (str_map f s')
  end.

(** [s.capitalize()] on ASCII text. *)
Definition capitalize (s : string) : string :=
  match s with
  | EmptyString => ""
  | String c s' => String (upper c) (str_map lower s')
  end.

(** ** search_provider.py: the result record *)

(** [@dataclass SearchResult]: the constructor stores whatever it is given,
    so a field holds a Python value, a string only when upstream sent one. *)
Record SearchResult : Type := {
  title : pyval;
  url : pyval;
  content : pyval;
  source : pyval
}.

Definition is_str (v : pyval) : bool :=
  match v with PStr _ => true | _ => false end.

(** ** The process: everything the code shares or reaches outside itself *)

(** One outgoing call of an adapter. *)
Inductive request : Type :=
| SerpGet (params : dict)
| TavilySearch (api_key : pyval) (query : string) (kwargs : dict)
| YouGet (url : string) (params headers : dict).

(** A live adapter object with its attributes. *)
Inductive provider : Type :=
| SerpProvider (api_key : pyval)
| TavilyProvider (api_key : pyval)
| YouProvider (api_key : pyval) (headers : dict).

Abbreviation loc := nat.

(** A [SearchClient] object: its own [providers] dict and a reference to the
    dict it was given as [provider_configs]. *)
Record client : Type := {
  providers : gmap string provider;
  provider_configs : loc
}.

Record process : Type := {
  providers_dir : list string;          (* names found in search_providers/ *)
  environ : gmap string string;         (* os.environ *)
  transport : request -> res pyval;     (* what upstream answers *)
  supported_cache : option (gset string); (* slot of functools.cache *)
  dicts : gmap loc dict;                (* dict objects, by address *)
  clients : list client;                (* client objects, by address *)
  wire : list request;                  (* network calls made, oldest first *)
  built : list (string * pyval)         (* constructor calls: class, config *)
}.

(** The dict created once, when [def __init__(self, provider_configs={})]
    is evaluated. *)
Definition default_configs : loc := 0.

Definition M (A : Type) : Type := process -> res A * process.

#[global] Instance M_ret : MRet M := fun A a p => (Ok a, p).
#[global] Instance M_bind : MBind M := fun A B k m p =>
  match m p with
  | (Ok a, p') => k a p'
  | (Raise e, p') => (Raise e, p')
  end.

Definition raise {A} (e : exn) : M A := fun p => (Raise e, p).
Definition lift {A} (r : res A) : M A := fun p => (r, p).
Definition gets {A} (f : process -> A) : M A := fun p => (Ok (f p), p).
Definition modify (f : process -> process) : M unit := fun p => (Ok tt, f p).

Definition with_cache (s : gset string) (p : process) : process :=
  {| providers_dir := providers_dir p; environ := environ p;
     transport := transport p; supported_cache := Some s;
     dicts := dicts p; clients := clients p; wire := wire p;
     built := built p |}.

Definition with_dicts (d : gmap loc dict) (p : process) : process :=
  {| providers_dir := providers_dir p; environ := environ p;
     transport := transport p; supported_cache := supported_cache p;
     dicts := d; clients := clients p; wire := wire p; built := built p |}.

Definition with_clients (c : list client) (p : process) : process :=
  {| providers_dir := providers_dir p; environ := environ p;
     transport := transport p; supported_cache := supported_cache p;
     dicts := dicts p; clients := c; wire := wire p; built := built p |}.

Definition with_wire (w : list request) (p : process) : process :=
  {| providers_dir := providers_dir p; environ := environ p;
     transport := transport p; supported_cache := supported_cache p;
     dicts := dicts p; clients := clients p; wire := w; built := built p |}.

Definition with_built (b : list (string * pyval)) (p : process) : process :=
  {| providers_dir := providers_dir p; environ := environ p;
     transport := transport p; supported_cache := supported_cache p;
     dicts := dicts p; clients := clients p; wire := wire p; built := b |}.

(** A dict object read through its address; an address never written holds
    the empty dict. *)
Definition deref (p : process) (l : loc) : dict := default [] (dicts p !! l).

(** [os.getenv(name)] *)
Definition getenv (name : string) : M pyval :=
  gets (fun p => match environ p !! name with
                 | Some v => PStr v
                 | None => PNone
                 end).

(** One network round trip: the call is recorded, upstream answers or the
    transport raises (a non-2xx status, an undecodable body). *)
Definition send (r : request) : M pyval :=
  fun p => (transport p r, with_wire (wire p ++ [r]) p).

(** [d[k]] *)
Definition py_item (d : dict) (k : string) : res pyval :=
  match dict_get k d with
  | Some v => Ok v
  | None => Raise KeyError
  end.

(** The argument [specific_function]: [None] or a string.  [sf_val] is the
    Python value, [sf_is name] the test [specific_function == name]. *)
Definition sf_val (sf : option string) : pyval :=
  match sf with
  | Some s => PStr s
  | None => PNone
  end.

Definition sf_is (name : string) (sf : option string) : bool :=
  match sf with
  | Some s => s =? name
  | None => false
  end.

(** [self.api_key = api_key or os.getenv(var)], then the guard
    [if not self.api_key: raise ValueError(...)]. *)
Definition resolve_api_key (api_key : pyval) (var msg : string) : M pyval :=
  fallback ← getenv var;
  let key := if truthy api_key then api_key else fallback in
  if truthy key then mret key else raise (ValueError msg).

(** ** search_providers/serp_search_provider.py *)

Module SerpSearchProvider.

Definition key_required : string :=
  "SerpAPI key is required. Either pass it to the constructor or set SERP_API_KEY environment variable.".

Definition init (api_key : pyval) : M provider :=
  key ← resolve_api_key api_key "SERP_API_KEY" key_required;
  mret (SerpProvider key).

Section WithBuiltins.
Context `{PyBuiltins}.

Definition video_result (result : pyval) : res SearchResult :=
  t ← py_get result "title" (PStr "");
  u ← py_get result "link" (PStr "");
  duration ← py_get result "duration" (PStr "N/A");
  views ← py_get result "views" (PStr "N/A");
  channel ← py_get result "channel" (PDict []);
  name ← py_get channel "name" (PStr "N/A");
  description ← py_get result "description" (PStr "");
  Ok {| title := t;
        url := u;
        content := PStr ("Duration: " +:+ py_str duration +:+ " | " +:+
                         "Views: " +:+ py_str views +:+ " | " +:+
                         "Channel: " +:+ py_str name +:+ " | " +:+
                         "Description: " +:+ py_str description);
        source := PStr "serpapi:youtube" |}.

(** The comprehension of [youtube_search] over the decoded response. *)
Definition map_video (results : pyval) : res (list SearchResult) :=
  video_results ← py_get results "video_results" (PList []);
  items ← py_iter video_results;
  res_map video_result items.

Definition youtube_params (api_key : pyval) (query : string)
    (kwargs : dict) : dict :=
  dict_update [("q", PStr query); ("api_key", api_key);
               ("engine", PStr "youtube")] kwargs.

Definition youtube_search (api_key : pyval) (query : string)
    (kwargs : dict) : M (list SearchResult) :=
  results ← send (SerpGet (youtube_params api_key query kwargs));
  lift (map_video results).

Definition organic_result (params : dict) (result : pyval)
    : res SearchResult :=
  t ← py_get result "title" (PStr "");
  u ← py_get result "link" (PStr "");
  c ← py_get result "snippet" (PStr "");
  engine ← py_item params "engine";
  Ok {| title := t; url := u; content := c;
        source := PStr ("serpapi:" +:+ py_str engine) |}.

(** The comprehension of [search] over the decoded response. *)
Definition map_organic (params : dict) (results : pyval)
    : res (list SearchResult) :=
  organic_results ← py_get results "organic_results" (PList []);
  items ← py_iter organic_results;
  res_map (organic_result params) items.

(** The [params] dict as it stands when [GoogleSearch(params)] is
    built: the literal with [**kwargs] spread last, then the override. *)
Definition search_params (api_key : pyval) (query : string)
    (specific_function : option string) (kwargs : dict) : dict :=
  let params := dict_update [("q", PStr query); ("api_key", api_key);
                             ("engine", PStr "google")] kwargs in
  if truthy (sf_val specific_function)
  then dict_set "engine" (sf_val specific_function) params
  else params.

(** [search]; the [print] of the arguments to stdout is not modelled. *)
Definition search (api_key : pyval) (query : string)
    (specific_function : option string) (kwargs : dict)
    : M (list SearchResult) :=
  if sf_is "youtube" specific_function
  then youtube_search api_key query kwargs
  else
    let params := search_params api_key query specific_function kwargs in
    results ← send (SerpGet params);
    lift (map_organic params results).
End WithBuiltins.

End SerpSearchProvider.

(** ** search_providers/tavily_search_provider.py *)

Module TavilySearchProvider.

Definition key_required : string :=
  "Tavily API key is required. Either pass it to the constructor or set TAVILY_API_KEY environment variable.".

(** [TavilyClient(api_key=...)] only stores the key. *)
Definition init (api_key : pyval) : M provider :=
  key ← resolve_api_key api_key "TAVILY_API_KEY" key_required;
  mret (TavilyProvider key).

Definition tavily_result (result : pyval) : res SearchResult :=
  t ← py_get result "title" (PStr "");
  u ← py_get result "url" (PStr "");
  c ← py_get result "content" (PStr "");
  Ok {| title := t; url := u; content := c; source := PStr "tavily" |}.

Definition map_results (response : pyval) : res (list SearchResult) :=
  results ← py_get response "results" (PList []);
  items ← py_iter results;
  res_map tavily_result items.

(** [specific_function] is accepted and not used. *)
Definition search (api_key : pyval) (query : string)
    (specific_function : option string) (kwargs : dict)
    : M (list SearchResult) :=
  response ← send (TavilySearch api_key query kwargs);
  lift (map_results response).

End TavilySearchProvider.

(** ** search_providers/you_search_provider.py *)

Module YouSearchProvider.

Definition BASE_URL : string := "https://api.ydc-index.io".

Definition key_required : string :=
  "You.com API key is required. Either pass it to the constructor or set YOU_COM_API_KEY environment variable.".

(** [httpx.Client()] opens no connection; the headers carry the key. *)
Definition init (api_key : pyval) : M provider :=
  key ← resolve_api_key api_key "YOU_COM_API_KEY" key_required;
  mret (YouProvider key [("X-API-Key", key)]).

Definition news_result (result : pyval) : res SearchResult :=
  t ← py_get result "title" (PStr "");
  u ← py_get result "url" (PStr "");
  c ← py_get result "description" (PStr "");
  Ok {| title := t; url := u; content := c;
        source := PStr "you.com:news" |}.

Definition map_news (data : pyval) : res (list SearchResult) :=
  news ← py_get data "news" (PDict []);
  results ← py_get news "results" (PList []);
  items ← py_iter results;
  res_map news_result items.

Definition news_request (headers : dict) (query : string) (kwargs : dict)
    : request :=
  YouGet (BASE_URL +:+ "/news?q=" +:+ query)
         (dict_update [("q", PStr query)] kwargs) headers.

Definition get_news (headers : dict) (query : string) (kwargs : dict)
    : M (list SearchResult) :=
  data ← send (news_request headers query kwargs);
  lift (map_news data).

(** [hit.get("description", "") or " ".join(hit.get("snippets", []))]:
    the right operand runs only when the description is falsy. *)
Definition hit_content (hit : pyval) : res pyval :=
  description ← py_get hit "description" (PStr "");
  py_or description
    (snippets ← py_get hit "snippets" (PList []);
     py_join " " snippets).

Definition hit_result (hit : pyval) : res SearchResult :=
  t ← py_get hit "title" (PStr "");
  u ← py_get hit "url" (PStr "");
  c ← hit_content hit;
  Ok {| title := t; url := u; content := c; source := PStr "you.com" |}.

Definition map_hits (data : pyval) : res (list SearchResult) :=
  hits ← py_get data "hits" (PList []);
  items ← py_iter hits;
  res_map hit_result items.

Definition search_request (headers : dict) (query : string) (kwargs : dict)
    : request :=
  YouGet (BASE_URL +:+ "/search?query=" +:+ query)
         (dict_update [("query", PStr query)] kwargs) headers.

Definition search (headers : dict) (query : string)
    (specific_function : option string) (kwargs : dict)
    : M (list SearchResult) :=
  if sf_is "get_news" specific_function
  then get_news headers query kwargs
  else
    data ← send (search_request headers query kwargs);
    lift (map_hits data).

End YouSearchProvider.

(** [instance.search(query, specific_function=..., **kwargs)]: dispatch on
    the class of the adapter object. *)
Definition provider_search `{PyBuiltins} (inst : provider) (query : string)
    (specific_function : option string) (kwargs : dict)
    : M (list SearchResult) :=
  match inst with
  | SerpProvider k =>
      SerpSearchProvider.search k query specific_function kwargs
  | TavilyProvider k =>
      TavilySearchProvider.search k query specific_function kwargs
  | YouProvider _ headers =>
      YouSearchProvider.search headers query specific_function kwargs
  end.

(** ** search_provider.py: the factory *)

Module SearchProviderFactory.

(** [Path.glob("*_search_provider.py")] on the names of one directory. *)
Definition glob_match (name : string) : bool :=
  ends_with "_search_provider.py" name.

(** [PurePath.stem]: the name up to its last dot, when that dot is neither
    the first nor the last character. *)
Definition stem (name : string) : string :=
  match rfind "."%char name with
  | Some i =>
      if (0 <? i)%nat && (i <? String.length name - 1)%nat
      then substring 0 i name
      else name
  | None => name
  end.

(** [file.stem.replace("_search_provider", "")] *)
Definition provider_key_of (name : string) : string :=
  str_remove "_search_provider" (stem name).

(** The set comprehension over the glob. *)
Definition scan (dir : list string) : gset string :=
  list_to_set (map provider_key_of (List.filter glob_match dir)).

(** [@functools.cache]: the body runs on the first call only. *)
Definition get_supported_providers : M (gset string) :=
  fun p =>
    match supported_cache p with
    | Some s => (Ok s, p)
    | None =>
        let s := scan (providers_dir p) in
        (Ok s, with_cache s p)
    end.

(** The classes a module of the package defines, by name.  These are the
    three modules the repository ships. *)
Definition modules : list (string * list (string * (pyval -> M provider))) :=
  [ ("aisuite.search_providers.serp_search_provider",
      [("SerpSearchProvider", SerpSearchProvider.init)]);
    ("aisuite.search_providers.tavily_search_provider",
      [("TavilySearchProvider", TavilySearchProvider.init)]);
    ("aisuite.search_providers.you_search_provider",
      [("YouSearchProvider", YouSearchProvider.init)]) ].

Fixpoint assoc {A} (k : string) (l : list (string * A)) : option A :=
  match l with
  | [] => None
  | (k', a) :: l' => if k' =? k then Some a else assoc k l'
  end.

(** [provider_class( **config)] for a class whose [__init__] takes the one
    keyword [api_key=None]: any other key is a TypeError, and so is a
    [config] that is not a mapping. *)
Definition bind_api_key (config : pyval) : res pyval :=
  match config with
  | PDict d =>
      if forallb (fun kv => fst kv =? "api_key") d
      then Ok (default PNone (dict_get "api_key" d))
      else Raise TypeError
  | _ => Raise TypeError
  end.

Definition module_path_of (provider_key : string) : string :=
  "aisuite.search_providers." +:+ (provider_key +:+ "_search_provider").

Definition class_name_of (provider_key : string) : string :=
  capitalize provider_key +:+ "SearchProvider".

(** The ImportError carries the module path; the text the source builds
    around it also quotes the interpreter's own message. *)
Definition create_provider (provider_key : string) (config : pyval)
    : M provider :=
  let provider_class_name := class_name_of provider_key in
  let module_path := module_path_of provider_key in
  match assoc module_path modules with
  | None => raise (ImportError module_path)
  | Some module =>
      match assoc provider_class_name module with
      | None => raise AttributeError
      | Some provider_class =>
          _ ← modify (fun p =>
                 with_built (built p ++ [(provider_class_name, config)]) p);
          api_key ← lift (bind_api_key config);
          provider_class api_key
      end
  end.

End SearchProviderFactory.

(** ** search_client.py *)

Module SearchClient.
Import SearchProviderFactory.

(** The client object at an address.  Python code never holds an address
    without an object; the embedding answers AttributeError there. *)
Definition this (self : loc) : M client :=
  fun p =>
    match clients p !! self with
    | Some c => (Ok c, p)
    | None => (Raise AttributeError, p)
    end.

(** [self.providers[provider_key] = inst] *)
Definition set_provider (self : loc) (provider_key : string)
    (inst : provider) : M unit :=
  modify (fun p =>
    with_clients
      (alter (fun c => {| providers := <[provider_key := inst]> (providers c);
                          provider_configs := provider_configs c |})
             self (clients p)) p).

Section WithBuiltins.
Context `{PyBuiltins}.

Definition invalid_key_msg (provider_key : string)
    (supported : gset string) : string :=
  "Invalid provider key '" +:+ provider_key +:+
  "'. Supported providers: " +:+ set_repr supported +:+ ". " +:+
  "Make sure the provider string is formatted correctly as 'provider' or 'provider:function'.".

Definition _validate_provider_key (provider_key : string) : M unit :=
  supported_providers ← get_supported_providers;
  if bool_decide (provider_key ∈ supported_providers)
  then mret tt
  else raise (ValueError (invalid_key_msg provider_key supported_providers)).

(** The loop of [_initialize_providers] over the items of the dict. *)
Fixpoint initialize_each (self : loc) (items : dict) : M unit :=
  match items with
  | [] => mret tt
  | (provider_key, config) :: rest =>
      _ ← _validate_provider_key provider_key;
      inst ← create_provider provider_key config;
      _ ← set_provider self provider_key inst;
      initialize_each self rest
  end.

Definition _initialize_providers (self : loc) : M unit :=
  c ← this self;
  items ← gets (fun p => deref p (provider_configs c));
  initialize_each self items.

(** [SearchClient(provider_configs)]: [None] stands for a call without
    the argument, which binds the one default dict; the new object's
    address is returned. *)
Definition init (arg : option loc) : M loc :=
  self ← gets (fun p => length (clients p));
  _ ← modify (fun p =>
         with_clients
           (clients p ++ [{| providers := ∅;
                             provider_configs := default default_configs arg |}])
           p);
  _ ← _initialize_providers self;
  mret self.

(** [configure(provider_configs)]: [None] stands for the default. *)
Definition configure (self : loc) (arg : option dict) : M unit :=
  match arg with
  | None => mret tt
  | Some new_configs =>
      c ← this self;
      _ ← modify (fun p =>
             with_dicts
               (<[provider_configs c :=
                    dict_update (deref p (provider_configs c)) new_configs]>
                  (dicts p)) p);
      _initialize_providers self
  end.

Definition could_not_load (provider_key : string) : string :=
  "Could not load provider for '" +:+ provider_key +:+ "'.".

(** [search(provider, query, **kwargs)].  The final call passes
    [specific_function] by keyword next to [**kwargs], so a caller's own
    [specific_function] option is a TypeError there. *)
Definition search (self : loc) (provider : string) (query : string)
    (kwargs : dict) : M (list SearchResult) :=
  let '(provider_key, _, specific_function) := partition_colon provider in
  _ ← _validate_provider_key provider_key;
  c ← this self;
  _ ← match providers c !! provider_key with
      | Some _ => mret tt
      | None =>
          cfgs ← gets (fun p => deref p (provider_configs c));
          let config := default (PDict []) (dict_get provider_key cfgs) in
          inst ← create_provider provider_key config;
          set_provider self provider_key inst
      end;
  c ← this self;
  match providers c !! provider_key with
  | None => raise (ValueError (could_not_load provider_key))
  | Some provider_instance =>
      match dict_get "specific_function" kwargs with
      | Some _ => raise TypeError
      | None =>
          provider_search provider_instance query
            (Some specific_function) kwargs
      end
  end.
End WithBuiltins.

End SearchClient.

(** ** providers/perplexity_provider.py *)

Module PerplexityProvider.

(** The exceptions of this module: those above, and IndexError. *)
Inductive chat_exn : Type :=
| Std (e : exn)
| IndexError.

Inductive chat_res (A : Type) : Type :=
| Done (a : A)
| Fail (e : chat_exn).
Arguments Done {A} a.
Arguments Fail {A} e.

#[global] Instance chat_ret : MRet chat_res := fun A a => Done a.
#[global] Instance chat_mbind : MBind chat_res := fun A B k r =>
  match r with
  | Done a => k a
  | Fail e => Fail e
  end.

(** [v[k]] for a string [k]: a dict looks the key up, a list or a string
    wants an integer, anything else is not subscriptable. *)
Definition item (v : pyval) (k : string) : chat_res pyval :=
  match v with
  | PDict d =>
      match dict_get k d with
      | Some x => Done x
      | None => Fail (Std KeyError)
      end
  | _ => Fail (Std TypeError)
  end.

(** [v[0]]: a dict has string keys only, so the key 0 is never found. *)
Definition first (v : pyval) : chat_res pyval :=
  match v with
  | PList (x :: _) => Done x
  | PList [] => Fail IndexError
  | PStr (String c s) => Done (PStr (String c (continuation_prefix s)))
  | PStr EmptyString => Fail IndexError
  | PDict _ => Fail (Std KeyError)
  | PNone | PBool _ | PInt _ => Fail (Std TypeError)
  end.

Record ChatCompletionMessage : Type := {
  msg_content : pyval;
  role : pyval
}.

Record ChatCompletionChoice : Type := {
  message : ChatCompletionMessage;
  finish_reason : pyval;
  index : pyval
}.

Record ChatCompletionResponse : Type := {
  choices : list ChatCompletionChoice
}.

(** [ChatCompletionResponse()]: the defaults of the three dataclasses. *)
Definition blank : ChatCompletionResponse :=
  {| choices := [{| message := {| msg_content := PStr "";
                                  role := PStr "assistant" |};
                    finish_reason := PNone;
                    index := PInt 0 |}] |}.

(** [from_api_response]: the four assignments into the one default choice,
    in the order of the source; the instance is returned only when all of
    them went through. *)
Definition from_api_response (response : pyval)
    : chat_res ChatCompletionResponse :=
  all_choices ← item response "choices";
  choice ← first all_choices;
  m ← item choice "message";
  c ← item m "content";
  m' ← item choice "message";
  r ← item m' "role";
  fr ← item choice "finish_reason";
  i ← item choice "index";
  Done {| choices := [{| message := {| msg_content := c; role := r |};
                         finish_reason := fr;
                         index := i |}] |}.

Definition key_missing : string :=
  "Perplexity API key is missing. Please provide it in the config or set the PERPLEXITY_API_KEY environment variable.".

(** [__init__( **config)]: any keyword is accepted; the object keeps the
    three headers. *)
Definition init `{PyBuiltins} (config : dict) : M dict :=
  fallback ← getenv "PERPLEXITY_API_KEY";
  let given := default PNone (dict_get "api_key" config) in
  let api_key := if truthy given then given else fallback in
  if truthy api_key
  then mret [("Authorization", PStr ("Bearer " +:+ py_str api_key));
             ("Content-Type", PStr "application/json");
             ("Accept", PStr "application/json")]
  else raise (ValueError key_missing).

End PerplexityProvider.

(** ** A concrete interpreter and process, for running the code *)

(** [repr] for ASCII text: single quotes unless the text has a single quote
    and no double quote; backslash, the chosen quote and control characters
    escaped.  A set lists its elements in the order [elements] gives. *)
Module Reference.

Definition dquote : ascii := ascii_of_nat 34.
Definition squote : ascii := ascii_of_nat 39.
Definition backslash : ascii := ascii_of_nat 92.

Fixpoint has_char (c : ascii) (s : string) : bool :=
  match s with
  | EmptyString => false
  | String a s' => Ascii.eqb a c || has_char c s'
  end.

Definition hex_digit (n : nat) : ascii :=
  if (n <? 10)%nat then ascii_of_nat (48 + n) else ascii_of_nat (87 + n).

Definition escape (quote c : ascii) : string :=
  let n := nat_of_ascii c in
  if Ascii.eqb c backslash || Ascii.eqb c quote
  then String backslash (String c "")
  else if (n =? 10)%nat then String backslash "n"
  else if (n =? 13)%nat then String backslash "r"
  else if (n =? 9)%nat then String backslash "t"
  else if (n <? 32)%nat || (n =? 127)%nat
  then String backslash
         (String "x" (String (hex_digit (n / 16))
                             (String (hex_digit (n mod 16)) "")))
  else String c "".

Fixpoint escape_all (quote : ascii) (s : string) : string :=
  match s with
  | EmptyString => ""
  | String c s' => escape quote c +:+ escape_all quote s'
  end.

Definition repr_str (s : string) : string :=
  let quote :=
    if has_char squote s && negb (has_char dquote s)
    then dquote else squote in
  String quote (escape_all quote s +:+ String quote "").

Fixpoint repr (v : pyval) : string :=
  match v with
  | PNone => "None"
  | PBool true => "True"
  | PBool false => "False"
  | PInt n => int_str n
  | PStr s => repr_str s
  | PList items => "[" +:+ String.concat ", " (map repr items) +:+ "]"
  | PDict entries =>
      "{" +:+
      String.concat ", "
        (map (fun kv => repr_str (fst kv) +:+ ": " +:+ repr (snd kv))
             entries) +:+
      "}"
  end.

Definition repr_set (s : gset string) : string :=
  match elements s with
  | [] => "set()"
  | l => "{" +:+ String.concat ", " (map repr_str l) +:+ "}"
  end.

Definition builtins : PyBuiltins :=
  {| py_repr := repr; set_repr := repr_set |}.

End Reference.

(** The directory as the repository ships it. *)
Definition repo_dir : list string :=
  ["serp_search_provider.py"; "tavily_search_provider.py";
   "you_search_provider.py"].

(** A process that has just started: nothing cached, no object yet, the
    default dict still empty. *)
Definition start (dir : list string) (env : gmap string string)
    (upstream : request -> res pyval) : process :=
  {| providers_dir := dir; environ := env; transport := upstream;
     supported_cache := None; dicts := ∅; clients := []; wire := [];
     built := [] |}.

(** ** Vocabulary of the specification *)

(** A provider key of the addressing grammar [provider[":" subfunction]]
    holds no colon. *)
Fixpoint no_colon (s : string) : bool :=
  match s with
  | EmptyString => true
  | String c s' => negb (Ascii.eqb c ":"%char) && no_colon s'
  end.

(** The set [get_supported_providers] returns in process [p]: the cached
    one, else the scan of the directory as it is now. *)
Definition supported_now (p : process) : gset string :=
  match supported_cache p with
  | Some s => s
  | None => SearchProviderFactory.scan (providers_dir p)
  end.

(** A field of a hit as the result record receives it: the value sent, the
    empty string when the key is missing. *)
Definition field_or_empty (k : string) (hit : dict) : pyval :=
  match dict_get k hit with
  | Some v => v
  | None => PStr ""
  end.

(** The hits under a result-array key; none when the key is missing. *)
Definition hits_under (k : string) (response : dict) : list pyval :=
  match dict_get k response with
  | Some (PList l) => l
  | _ => []
  end.

Definition str_or_missing (hit : dict) (k : string) : bool :=
  match dict_get k hit with
  | Some v => is_str v
  | None => true
  end.

Definition strs_or_missing (hit : dict) (k : string) : bool :=
  match dict_get k hit with
  | Some (PList l) => forallb is_str l
  | Some _ => false
  | None => true
  end.

(** The expected shape of a hit: a JSON object whose fields named in
    [fields] are each missing or a string, and whose fields named in [lists]
    are each missing or a list of strings. *)
Definition hit_shape (fields lists : list string) (hit : pyval) : bool :=
  match hit with
  | PDict d =>
      forallb (str_or_missing d) fields && forallb (strs_or_missing d) lists
  | _ => false
  end.

(** The expected shape of a result array: missing, or a list of hits. *)
Definition array_shape (fields lists : list string) (k : string)
    (response : dict) : bool :=
  match dict_get k response with
  | Some (PList l) => forallb (hit_shape fields lists) l
  | Some _ => false
  | None => true
  end.

Definition all_strings (r : SearchResult) : Prop :=
  is_str (title r) = true /\ is_str (url r) = true /\
  is_str (content r) = true /\ is_str (source r) = true.

(** What a hit becomes when its title, url and content come from the keys
    [kt], [ku], [kc] and every result carries the tag [tag]. *)
Definition plain_result (kt ku kc tag : string) (hit : pyval)
    (r : SearchResult) : Prop :=
  exists d, hit = PDict d /\
    title r = field_or_empty kt d /\
    url r = field_or_empty ku d /\
    content r = field_or_empty kc d /\
    source r = PStr tag.

Definition strings_of (v : pyval) : list string :=
  match v with
  | PList l => omap (fun x => match x with PStr s => Some s | _ => None end) l
  | _ => []
  end.

(** The web path of the you.com adapter: the description when it is not
    empty, else the snippets joined by one space. *)
Definition web_result (hit : pyval) (r : SearchResult) : Prop :=
  exists d, hit = PDict d /\
    title r = field_or_empty "title" d /\
    url r = field_or_empty "url" d /\
    content r =
      (if truthy (field_or_empty "description" d)
       then field_or_empty "description" d
       else PStr (String.concat " "
                    (strings_of (default (PList []) (dict_get "snippets" d))))) /\
    source r = PStr "you.com".

(** The content line of a video hit, from four values already fetched. *)
Definition video_line `{PyBuiltins} (duration views name description : pyval)
    : string :=
  "Duration: " +:+ py_str duration +:+ " | Views: " +:+ py_str views +:+
  " | Channel: " +:+ py_str name +:+ " | Description: " +:+
  py_str description.

Definition video_hit `{PyBuiltins} (hit : pyval) (r : SearchResult) : Prop :=
  exists d ch, hit = PDict d /\
    default (PDict []) (dict_get "channel" d) = PDict ch /\
    title r = field_or_empty "title" d /\
    url r = field_or_empty "link" d /\
    content r = PStr (video_line
                        (default (PStr "N/A") (dict_get "duration" d))
                        (default (PStr "N/A") (dict_get "views" d))
                        (default (PStr "N/A") (dict_get "name" ch))
                        (field_or_empty "description" d)) /\
    source r = PStr "serpapi:youtube".

Definition channel_ok (hit : pyval) : bool :=
  match hit with
  | PDict d =>
      match dict_get "channel" d with
      | Some (PDict _) | None => true
      | Some _ => false
      end
  | _ => false
  end.

(** The engine an outgoing meta-search request names. *)
Definition engine_of (r : request) : option pyval :=
  match r with
  | SerpGet params => dict_get "engine" params
  | _ => None
  end.

(** Modelled after the words of the specification, for comparison with
    [provider_key_of]: the stem with its [suf] ending taken off once. *)
Fixpoint strip_suffix (suf s : string) : string :=
  if s =? suf then ""
  else match s with
       | EmptyString => ""
       | String c s' => String c (strip_suffix suf s')
       end.

Definition scan_by_suffix (dir : list string) : gset string :=
  list_to_set
    (map (fun name => strip_suffix "_search_provider"
                        (SearchProviderFactory.stem name))
         (List.filter SearchProviderFactory.glob_match dir)).

(** The environment variable each adapter falls back to, its message and
    the object it builds from a resolved key. *)
Inductive adapter : Type := Serp | Tavily | You.

Definition adapter_init (a : adapter) : pyval -> M provider :=
  match a with
  | Serp => SerpSearchProvider.init
  | Tavily => TavilySearchProvider.init
  | You => YouSearchProvider.init
  end.

Definition adapter_var (a : adapter) : string :=
  match a with
  | Serp => "SERP_API_KEY"
  | Tavily => "TAVILY_API_KEY"
  | You => "YOU_COM_API_KEY"
  end.

Definition adapter_msg (a : adapter) : string :=
  match a with
  | Serp => SerpSearchProvider.key_required
  | Tavily => TavilySearchProvider.key_required
  | You => YouSearchProvider.key_required
  end.

Definition adapter_object (a : adapter) (key : pyval) : provider :=
  match a with
  | Serp => SerpProvider key
  | Tavily => TavilyProvider key
  | You => YouProvider key [("X-API-Key", key)]
  end.

Definition news_part (response : dict) : dict :=
  match dict_get "news" response with
  | Some (PDict n) => n
  | _ => []
  end.

(** The five mappings from a decoded response to results. *)
Inductive path : Type :=
| OrganicPath (params : dict)
| VideoPath
| TavilyPath
| WebPath
| NewsPath.

Definition normalize `{PyBuiltins} (w : path) (response : pyval)
    : res (list SearchResult) :=
  match w with
  | OrganicPath params => SerpSearchProvider.map_organic params response
  | VideoPath => SerpSearchProvider.map_video response
  | TavilyPath => TavilySearchProvider.map_results response
  | WebPath => YouSearchProvider.map_hits response
  | NewsPath => YouSearchProvider.map_news response
  end.

Definition path_hits (w : path) (response : dict) : list pyval :=
  match w with
  | OrganicPath _ => hits_under "organic_results" response
  | VideoPath => hits_under "video_results" response
  | TavilyPath => hits_under "results" response
  | WebPath => hits_under "hits" response
  | NewsPath => hits_under "results" (news_part response)
  end.

(** The responses of the expected shape, per path. *)
Definition path_shape (w : path) (response : dict) : bool :=
  match w with
  | OrganicPath params =>
      match dict_get "engine" params with Some _ => true | None => false end
      && array_shape ["title"; "link"; "snippet"] [] "organic_results" response
  | VideoPath =>
      array_shape ["title"; "link"] [] "video_results" response
      && forallb channel_ok (hits_under "video_results" response)
  | TavilyPath =>
      array_shape ["title"; "url"; "content"] [] "results" response
  | WebPath =>
      array_shape ["title"; "url"; "description"] ["snippets"] "hits" response
  | NewsPath =>
      match dict_get "news" response with
      | Some (PDict n) =>
          array_shape ["title"; "url"; "description"] [] "results" n
      | Some _ => false
      | None => true
      end
  end.

Definition path_result `{PyBuiltins} (w : path) : pyval -> SearchResult -> Prop :=
  match w with
  | OrganicPath params =>
      plain_result "title" "link" "snippet"
        ("serpapi:" +:+ py_str (default PNone (dict_get "engine" params)))
  | VideoPath => video_hit
  | TavilyPath => plain_result "title" "url" "content" "tavily"
  | WebPath => web_result
  | NewsPath => plain_result "title" "url" "description" "you.com:news"
  end.

(** The default path of an adapter object: the request it sends and the
    mapping it applies to the answer. *)
Definition default_request (inst : provider) (query : string) (kwargs : dict)
    : request :=
  match inst with
  | SerpProvider k =>
      SerpGet (dict_update [("q", PStr query); ("api_key", k);
                            ("engine", PStr "google")] kwargs)
  | TavilyProvider k => TavilySearch k query kwargs
  | YouProvider _ headers =>
      YouGet (YouSearchProvider.BASE_URL +:+ "/search?query=" +:+ query)
             (dict_update [("query", PStr query)] kwargs) headers
  end.

Definition default_mapping `{PyBuiltins} (inst : provider) (query : string)
    (kwargs : dict) : pyval -> res (list SearchResult) :=
  match inst with
  | SerpProvider k =>
      SerpSearchProvider.map_organic
        (dict_update [("q", PStr query); ("api_key", k);
                      ("engine", PStr "google")] kwargs)
  | TavilyProvider _ => TavilySearchProvider.map_results
  | YouProvider _ _ => YouSearchProvider.map_hits
  end.

(** A computation leaves an observation [f] of the process as it found
    it, whether it returns or raises. *)
Definition preserves {A X} (f : process -> X) (m : M A) : Prop :=
  forall p, f (snd (m p)) = f p.

(** The dict each client object refers to, by address of the client. *)
Definition refs (p : process) : list loc := map provider_configs (clients p).

(** The first occurrence of [old] in [k +:+ old] is the one at the end. *)
Fixpoint ends_once (old k : string) : bool :=
  match k with
  | EmptyString => true
  | String c k' => negb (String.prefix old (k +:+ old)) && ends_once old k'
  end.

(** The one request a search of an adapter object sends, and the mapping
    it applies to the answer, read off the branches of the three [search]
    methods. *)
Definition request_of (inst : provider) (query : string)
    (sf : option string) (kwargs : dict) : request :=
  match inst with
  | SerpProvider k =>
      if sf_is "youtube" sf
      then SerpGet (SerpSearchProvider.youtube_params k query kwargs)
      else SerpGet (SerpSearchProvider.search_params k query sf kwargs)
  | TavilyProvider k => TavilySearch k query kwargs
  | YouProvider _ headers =>
      if sf_is "get_news" sf
      then YouSearchProvider.news_request headers query kwargs
      else YouSearchProvider.search_request headers query kwargs
  end.

Definition mapper_of `{PyBuiltins} (inst : provider) (query : string)
    (sf : option string) (kwargs : dict) : pyval -> res (list SearchResult) :=
  match inst with
  | SerpProvider k =>
      if sf_is "youtube" sf
      then SerpSearchProvider.map_video
      else SerpSearchProvider.map_organic
             (SerpSearchProvider.search_params k query sf kwargs)
  | TavilyProvider _ => TavilySearchProvider.map_results
  | YouProvider _ _ =>
      if sf_is "get_news" sf
      then YouSearchProvider.map_news
      else YouSearchProvider.map_hits
  end.

(** The credential an adapter object carries. *)
Definition api_key_of (inst : provider) : pyval :=
  match inst with
  | SerpProvider k | TavilyProvider k | YouProvider k _ => k
  end.

(** The directory changes under a running process. *)
Definition with_dir (dir : list string) (p : process) : process :=
  {| providers_dir := dir; environ := environ p;
     transport := transport p; supported_cache := supported_cache p;
     dicts := dicts p; clients := clients p; wire := wire p;
     built := built p |}.

(** A file name whose stem holds the text [_search_provider] once only. *)
Definition single_suffix (name : string) : bool :=
  ends_once "_search_provider" (strip_suffix "_search_provider.py" name).

(** The provider key under which each adapter's module is found. *)
Definition adapter_key (a : adapter) : string :=
  match a with
  | Serp => "serp"
  | Tavily => "tavily"
  | You => "you"
  end.

(** [self.providers[key] = inst] on one client object. *)
Definition store_adapter (key : string) (inst : provider) (c : client)
    : client :=
  {| providers := <[key := inst]> (providers c);
     provider_configs := provider_configs c |}.

(** The last step of [SearchClient.search], once the adapter is at hand. *)
Definition hand_over `{PyBuiltins} (inst : provider) (query sf : string)
    (kwargs : dict) : M (list SearchResult) :=
  match dict_get "specific_function" kwargs with
  | Some _ => raise TypeError
  | None => provider_search inst query (Some sf) kwargs
  end.

(** A computation that raises from every process. *)
Definition fails {A} (m : M A) : Prop :=
  forall p, exists e, fst (m p) = Raise e.

(** A computation that makes at most one network call. *)
Definition calls_at_most_once {A} (m : M A) : Prop :=
  forall p, exists reqs,
    wire (snd (m p)) = (wire p ++ reqs)%list /\ length reqs <= 1.

(** ** Sample values *)

(** A web hit that carries snippets and no description. *)
Definition snippet_hit : dict :=
  [("title", PStr "t"); ("url", PStr "u");
   ("snippets", PList [PStr "a"; PStr "b"])].

Definition snippet_response : dict := [("hits", PList [PDict snippet_hit])].

(** Upstream answers with JSON nulls where a list is expected. *)
Definition null_hits_response : dict := [("hits", PNone)].

Definition null_snippets_response : dict :=
  [("hits", PList [PDict [("title", PStr "t"); ("description", PNone);
                          ("snippets", PNone)]])].

(** A freshly started process over the shipped directory, no environment
    variable set, upstream answering every call with an empty object. *)
Definition quiet_process : process :=
  start repo_dir ∅ (fun _ => Ok (PDict [])).

(** A video answer that also carries an organic array. *)
Definition video_response : dict :=
  [("video_results",
     PList [PDict [("title", PStr "clip"); ("link", PStr "u");
                   ("duration", PStr "3:05"); ("views", PInt 1234);
                   ("channel", PDict [("name", PStr "ch")]);
                   ("description", PStr "d")]]);
   ("organic_results", PList [PDict [("title", PStr "page")]])].

(** The end-to-end scenario: a caller's dict [{"serp": {"api_key": "k"}}] at
    address 1, a client built over it, then [search("serp", "cats")]. *)
Definition serp_configs : dict := [("serp", PDict [("api_key", PStr "k")])].

Definition configured (env : gmap string string)
    (upstream : request -> res pyval) : process :=
  with_dicts {[ 1 := serp_configs ]} (start repo_dir env upstream).

Definition end_to_end `{PyBuiltins} (env : gmap string string)
    (upstream : request -> res pyval) : res (list SearchResult) * process :=
  match SearchClient.init (Some 1) (configured env upstream) with
  | (Ok self, p1) => SearchClient.search self "serp" "cats" [] p1
  | (Raise e, p1) => (Raise e, p1)
  end.

Definition two_organic : dict :=
  [("organic_results",
     PList [PDict [("title", PStr "a"); ("link", PStr "u1");
                   ("snippet", PStr "s1")];
            PDict [("title", PStr "b"); ("link", PStr "u2");
                   ("snippet", PStr "s2")]])].

(** A directory with one file whose stem holds the suffix twice. *)
Definition doubled_dir : list string :=
  ["web_search_provider_search_provider.py"].

(** Two clients built one after the other without the argument. *)
Definition two_clients : process :=
  snd (SearchClient.init (H := Reference.builtins) None
         (snd (SearchClient.init (H := Reference.builtins) None
                 quiet_process))).

Definition bare_client : client :=
  {| providers := ∅; provider_configs := default_configs |}.

(** A client built without configuration in a process whose environment
    holds the you.com key. *)
Definition keyed_process : process :=
  snd (SearchClient.init (H := Reference.builtins) None
         (start repo_dir {[ "YOU_COM_API_KEY" := "secret" ]}
            (fun _ => Ok (PDict [])))).

(** A chat answer with two choices. *)
Definition chat_answer : dict :=
  [("id", PStr "x");
   ("choices",
     PList [PDict [("index", PInt 0); ("finish_reason", PStr "stop");
                   ("message", PDict [("role", PStr "assistant");
                                      ("content", PStr "Arr!")])];
            PDict [("index", PInt 1); ("finish_reason", PStr "length");
                   ("message", PDict [("role", PStr "assistant");
                                      ("content", PStr "second")])]])].


(** The shared default dict already holds an entry for tavily. *)
Definition tavily_configs : dict :=
  [("tavily", PDict [("api_key", PStr "t")])].

Definition tavily_configured : process :=
  snd (SearchClient.configure (H := Reference.builtins) 1
         (Some tavily_configs) two_clients).

(** * Properties *)

Ltac unfold_bind :=
  unfold mbind, mret, res_mbind, res_ret, res_bind, M_bind, M_ret,
         lift, raise, gets, modify in *.

(** ** Strings and dicts *)

Lemma append_cons (c : ascii) (s t : string) :
  String c s +:+ t = String c (s +:+ t).
Proof. reflexivity. Qed.

Lemma partition_no_colon (s : string) :
  no_colon s = true -> partition_colon s = (s, "", "").
Proof.
  induction s as [|c s IH]; simpl; [reflexivity|].
  intros Hs. apply andb_prop in Hs as [Hc Hs].
  apply negb_true_iff in Hc. rewrite Hc, (IH Hs). reflexivity.
Qed.

Lemma partition_split (a b : string) :
  no_colon a = true -> partition_colon (a +:+ ":" +:+ b) = (a, ":", b).
Proof.
  induction a as [|c a IH]; [reflexivity|].
  intros Ha. simpl in Ha. apply andb_prop in Ha as [Hc Ha].
  apply negb_true_iff in Hc.
  rewrite append_cons. cbn [partition_colon].
  rewrite Hc, (IH Ha). reflexivity.
Qed.


Lemma dict_get_set_eq (k : string) (v : pyval) (d : dict) :
  dict_get k (dict_set k v d) = Some v.
Proof.
  induction d as [|[k' v'] d IH]; simpl.
  - rewrite String.eqb_refl. reflexivity.
  - destruct (k' =? k) eqn:E; simpl.
    + rewrite String.eqb_refl. reflexivity.
    + rewrite E. exact IH.
Qed.

Lemma dict_get_set_ne (k k' : string) (v : pyval) (d : dict) :
  k <> k' -> dict_get k' (dict_set k v d) = dict_get k' d.
Proof.
  intros Hne. induction d as [|[k0 v0] d IH]; simpl.
  - apply String.eqb_neq in Hne. rewrite Hne. reflexivity.
  - destruct (k0 =? k) eqn:E; simpl.
    + apply String.eqb_eq in E. subst k0.
      apply String.eqb_neq in Hne. rewrite Hne. reflexivity.
    + destruct (k0 =? k'); [reflexivity|exact IH].
Qed.

Lemma dict_get_update_none (k : string) (e d : dict) :
  dict_get k e = None -> dict_get k (dict_update d e) = dict_get k d.
Proof.
  unfold dict_update. revert d.
  induction e as [|[k0 v0] e IH]; simpl; intros d He; [reflexivity|].
  destruct (k0 =? k) eqn:E; [discriminate|].
  rewrite (IH _ He). apply dict_get_set_ne.
  apply String.eqb_neq. exact E.
Qed.

(** ** Normalisation *)

Lemma res_map_Forall2 {A B} (f : A -> res B) (R : A -> B -> Prop)
    (l : list A) :
  Forall (fun a => exists b, f a = Ok b /\ R a b) l ->
  exists bs, res_map f l = Ok bs /\ Forall2 R l bs.
Proof.
  induction 1 as [|a l (b & Hb & HR) _ (bs & Hbs & IH)]; simpl.
  - exists []. split; [reflexivity|constructor].
  - exists (b :: bs). unfold_bind. rewrite Hb, Hbs.
    split; [reflexivity|constructor; assumption].
Qed.

Lemma res_map_as_str (l : list pyval) :
  forallb is_str l = true -> res_map as_str l = Ok (strings_of (PList l)).
Proof.
  induction l as [|v l IH]; simpl; [reflexivity|].
  intros Hl. apply andb_prop in Hl as [Hv Hl].
  destruct v; try discriminate. simpl in *.
  unfold_bind. rewrite (IH Hl). reflexivity.
Qed.

Lemma field_is_str (d : dict) (k : string) :
  str_or_missing d k = true -> is_str (field_or_empty k d) = true.
Proof.
  unfold str_or_missing, field_or_empty.
  destruct (dict_get k d); simpl; auto.
Qed.

(** The array read and iterated, on a response of the expected shape. *)
Lemma array_iter (fields lists : list string) (k : string) (response : dict) :
  array_shape fields lists k response = true ->
  exists v, py_get (PDict response) k (PList []) = Ok v /\
            py_iter v = Ok (hits_under k response) /\
            Forall (fun h => hit_shape fields lists h = true)
                   (hits_under k response).
Proof.
  unfold array_shape, hits_under, py_get.
  destruct (dict_get k response) as [[| | | |l|]|]; try discriminate.
  - intros Hl. exists (PList l). repeat split.
    apply Forall_forall. intros h Hh.
    rewrite forallb_forall in Hl. apply Hl, list_elem_of_In. exact Hh.
  - intros _. exists (PList []). repeat split. constructor.
Qed.

Lemma plain_hit_ok (kt ku kc tag : string) (f : pyval -> res SearchResult)
    (h : pyval) :
  (forall d, f (PDict d) =
     Ok {| title := field_or_empty kt d; url := field_or_empty ku d;
           content := field_or_empty kc d; source := PStr tag |}) ->
  hit_shape [kt; ku; kc] [] h = true ->
  exists r, f h = Ok r /\ plain_result kt ku kc tag h r /\ all_strings r.
Proof.
  intros Hf Hh. destruct h as [| | | | |d]; try discriminate.
  simpl in Hh. rewrite !andb_true_r in Hh.
  apply andb_prop in Hh as [Ht Hh]. apply andb_prop in Hh as [Hu Hc].
  eexists. split; [apply Hf|]. split.
  - exists d. repeat split.
  - repeat split; cbn [title url content source];
      try (apply field_is_str; assumption); reflexivity.
Qed.

Lemma web_hit_ok (h : pyval) :
  hit_shape ["title"; "url"; "description"] ["snippets"] h = true ->
  exists r, YouSearchProvider.hit_result h = Ok r /\
            web_result h r /\ all_strings r.
Proof.
  intros Hh. destruct h as [| | | | |d]; try discriminate.
  simpl in Hh. rewrite !andb_true_r in Hh.
  apply andb_prop in Hh as [Hh Hs]. apply andb_prop in Hh as [Ht Hh].
  apply andb_prop in Hh as [Hu Hd].
  assert (Hc : YouSearchProvider.hit_content (PDict d) =
    Ok (if truthy (field_or_empty "description" d)
        then field_or_empty "description" d
        else PStr (String.concat " "
               (strings_of (default (PList []) (dict_get "snippets" d)))))).
  { unfold YouSearchProvider.hit_content, py_or, py_get. unfold_bind.
    change (match dict_get "description" d with
            | Some x => x | None => PStr "" end)
      with (field_or_empty "description" d).
    destruct (truthy (field_or_empty "description" d)); [reflexivity|].
    unfold strs_or_missing in Hs.
    destruct (dict_get "snippets" d) as [[| | | |l|]|]; try discriminate.
    - unfold py_join. unfold_bind. simpl.
      rewrite (res_map_as_str l Hs). reflexivity.
    - reflexivity. }
  eexists. split.
  - unfold YouSearchProvider.hit_result. unfold_bind.
    rewrite Hc. reflexivity.
  - split.
    + exists d. repeat split.
    + repeat split; cbn [title url content source];
        try (apply field_is_str; assumption); try reflexivity.
      destruct (truthy (field_or_empty "description" d));
        auto using field_is_str.
Qed.

Lemma video_hit_ok `{PyBuiltins} (h : pyval) :
  hit_shape ["title"; "link"] [] h = true -> channel_ok h = true ->
  exists r, SerpSearchProvider.video_result h = Ok r /\
            video_hit h r /\ all_strings r.
Proof.
  intros Hh Hch. destruct h as [| | | | |d]; try discriminate.
  simpl in Hh. rewrite !andb_true_r in Hh.
  apply andb_prop in Hh as [Ht Hu].
  assert (exists ch, default (PDict []) (dict_get "channel" d) = PDict ch)
    as [ch Ech].
  { simpl in Hch.
    destruct (dict_get "channel" d) as [[| | | | |ch]|]; try discriminate;
      eexists; reflexivity. }
  eexists. split.
  - unfold SerpSearchProvider.video_result, py_get at 1 2 3 4 5. unfold_bind.
    change (match dict_get "channel" d with
            | Some x => x | None => PDict [] end)
      with (default (PDict []) (dict_get "channel" d)).
    rewrite Ech. reflexivity.
  - split.
    + exists d, ch. repeat split. exact Ech.
    + repeat split; cbn [title url content source];
        try (apply field_is_str; assumption); try reflexivity.
Qed.

Lemma Forall2_split_right {A B} (R : A -> B -> Prop) (Q : B -> Prop)
    (l : list A) (bs : list B) :
  Forall2 (fun a b => R a b /\ Q b) l bs -> Forall2 R l bs /\ Forall Q bs.
Proof.
  induction 1 as [|a b l bs [HR HQ] _ [IH1 IH2]]; split; constructor; auto.
Qed.

(** The comprehension over an array that was read and iterated. *)
Lemma comprehension_ok (f : pyval -> res SearchResult)
    (R : pyval -> SearchResult -> Prop) (hits : list pyval) :
  Forall (fun h => exists r, f h = Ok r /\ R h r /\ all_strings r) hits ->
  exists rs, res_map f hits = Ok rs /\ Forall2 R hits rs /\
             Forall all_strings rs /\ (hits = [] -> rs = []).
Proof.
  intros Hall.
  destruct (res_map_Forall2 f (fun h r => R h r /\ all_strings r) hits Hall)
    as (rs & Hrs & H2).
  apply Forall2_split_right in H2 as [HR HS].
  exists rs. repeat split; auto.
  intros ->. inversion HR. reflexivity.
Qed.

Lemma Forall_shape_impl (P : pyval -> Prop) (fields lists : list string)
    (hits : list pyval) :
  (forall h, hit_shape fields lists h = true -> P h) ->
  Forall (fun h => hit_shape fields lists h = true) hits -> Forall P hits.
Proof. intros HP. induction 1; constructor; auto. Qed.

Lemma organic_ok `{PyBuiltins} (params response : dict) :
  path_shape (OrganicPath params) response = true ->
  exists rs, normalize (OrganicPath params) (PDict response) = Ok rs /\
    Forall2 (path_result (OrganicPath params))
            (path_hits (OrganicPath params) response) rs /\
    Forall all_strings rs /\
    (path_hits (OrganicPath params) response = [] -> rs = []).
Proof.
  simpl. intros Hs. apply andb_prop in Hs as [He Hs].
  destruct (array_iter _ _ _ _ Hs) as (v & Hv & Hit & Hall).
  unfold SerpSearchProvider.map_organic. unfold_bind.
  rewrite Hv, Hit. apply comprehension_ok.
  revert Hall. apply Forall_shape_impl. intros h Hh.
  apply plain_hit_ok; [|exact Hh]. intros d.
  unfold SerpSearchProvider.organic_result, py_item. unfold_bind. simpl.
  destruct (dict_get "engine" params); [reflexivity|discriminate].
Qed.

Lemma tavily_ok (response : dict) :
  array_shape ["title"; "url"; "content"] [] "results" response = true ->
  exists rs, TavilySearchProvider.map_results (PDict response) = Ok rs /\
    Forall2 (plain_result "title" "url" "content" "tavily")
            (hits_under "results" response) rs /\
    Forall all_strings rs /\
    (hits_under "results" response = [] -> rs = []).
Proof.
  intros Hs. destruct (array_iter _ _ _ _ Hs) as (v & Hv & Hit & Hall).
  unfold TavilySearchProvider.map_results. unfold_bind.
  rewrite Hv, Hit. apply comprehension_ok.
  revert Hall. apply Forall_shape_impl. intros h Hh.
  apply plain_hit_ok; [|exact Hh]. reflexivity.
Qed.

Lemma web_ok (response : dict) :
  array_shape ["title"; "url"; "description"] ["snippets"] "hits" response
    = true ->
  exists rs, YouSearchProvider.map_hits (PDict response) = Ok rs /\
    Forall2 web_result (hits_under "hits" response) rs /\
    Forall all_strings rs /\
    (hits_under "hits" response = [] -> rs = []).
Proof.
  intros Hs. destruct (array_iter _ _ _ _ Hs) as (v & Hv & Hit & Hall).
  unfold YouSearchProvider.map_hits. unfold_bind.
  rewrite Hv, Hit. apply comprehension_ok.
  revert Hall. apply Forall_shape_impl. exact web_hit_ok.
Qed.

Lemma news_ok (response : dict) :
  path_shape NewsPath response = true ->
  exists rs, YouSearchProvider.map_news (PDict response) = Ok rs /\
    Forall2 (plain_result "title" "url" "description" "you.com:news")
            (hits_under "results" (news_part response)) rs /\
    Forall all_strings rs /\
    (hits_under "results" (news_part response) = [] -> rs = []).
Proof.
  simpl. unfold news_part, YouSearchProvider.map_news. intros Hs.
  assert (exists n, py_get (PDict response) "news" (PDict []) = Ok (PDict n)
            /\ match dict_get "news" response with
               | Some (PDict n') => n' | _ => [] end = n
            /\ array_shape ["title"; "url"; "description"] [] "results" n
               = true) as (n & Hn & En & Hshape).
  { unfold py_get.
    destruct (dict_get "news" response) as [[| | | | |n]|]; try discriminate.
    - exists n. auto.
    - exists []. auto. }
  rewrite En. destruct (array_iter _ _ _ _ Hshape) as (v & Hv & Hit & Hall).
  unfold_bind. rewrite Hn, Hv, Hit. apply comprehension_ok.
  revert Hall. apply Forall_shape_impl. intros h Hh.
  apply plain_hit_ok; [|exact Hh]. reflexivity.
Qed.

Lemma video_ok `{PyBuiltins} (response : dict) :
  path_shape VideoPath response = true ->
  exists rs, SerpSearchProvider.map_video (PDict response) = Ok rs /\
    Forall2 video_hit (hits_under "video_results" response) rs /\
    Forall all_strings rs /\
    (hits_under "video_results" response = [] -> rs = []).
Proof.
  simpl. intros Hs. apply andb_prop in Hs as [Hs Hch].
  destruct (array_iter _ _ _ _ Hs) as (v & Hv & Hit & Hall).
  unfold SerpSearchProvider.map_video. unfold_bind.
  rewrite Hv, Hit. apply comprehension_ok.
  rewrite forallb_forall in Hch.
  rewrite List.Forall_forall in Hall. apply List.Forall_forall.
  intros h Hh. apply video_hit_ok; auto.
Qed.

(** ** C1: normalisation is total on responses of the expected shape *)

(** C1, as amended.  On an upstream JSON object of the expected shape (the
    result array missing or a list of objects; each mapped field missing or a
    string; [snippets] missing or a list of strings; [channel] missing or an
    object) every mapping of every adapter returns a list and does not
    raise: one result per hit, the empty list when the array is missing or
    empty, a missing title or url as the empty string, and all four fields
    strings.  A missing content field is the empty string on the organic,
    tavily and news paths; on the you.com web path the content is the
    description when it is not empty and else the snippets joined by spaces;
    on the youtube path it is the descriptive line. *)
Theorem C1_normalization_total `{PyBuiltins} (w : path) (response : dict) :
  path_shape w response = true ->
  exists rs, normalize w (PDict response) = Ok rs /\
    Forall2 (path_result w) (path_hits w response) rs /\
    Forall all_strings rs /\
    (path_hits w response = [] -> rs = []).
Proof.
  destruct w.
  - apply organic_ok.
  - apply video_ok.
  - apply tavily_ok.
  - apply web_ok.
  - apply news_ok.
Qed.

Lemma C1_normalization_total_witness :
  path_shape WebPath snippet_response = true /\
  exists rs, YouSearchProvider.map_hits (PDict snippet_response) = Ok rs /\
    Forall2 web_result (hits_under "hits" snippet_response) rs /\
    Forall all_strings rs /\
    (hits_under "hits" snippet_response = [] -> rs = []).
Proof.
  split; [reflexivity|].
  exact (@C1_normalization_total Reference.builtins WebPath snippet_response
           eq_refl).
Defined.

(** C1, as stated, fails: a web hit without a description does not get the
    empty string as its content but its snippets, and a response that holds
    a null where a list is expected makes the mapping raise. *)
Lemma C1_counterexample :
  dict_get "description" snippet_hit = None /\
  YouSearchProvider.map_hits (PDict snippet_response) =
    Ok [{| title := PStr "t"; url := PStr "u"; content := PStr "a b";
           source := PStr "you.com" |}] /\
  PStr "a b" <> PStr "" /\
  YouSearchProvider.map_hits (PDict null_hits_response) = Raise TypeError /\
  YouSearchProvider.map_hits (PDict null_snippets_response) = Raise TypeError.
Proof. repeat split; try reflexivity. discriminate. Qed.

(** ** The registry's memoised answer and the key check *)

Lemma with_cache_same (p : process) (s : gset string) :
  supported_cache p = Some s -> with_cache s p = p.
Proof. destruct p; simpl; intros ->; reflexivity. Qed.

Lemma get_supported_run (p : process) :
  SearchProviderFactory.get_supported_providers p =
    (Ok (supported_now p), with_cache (supported_now p) p).
Proof.
  unfold SearchProviderFactory.get_supported_providers, supported_now.
  destruct (supported_cache p) as [s|] eqn:E; [|reflexivity].
  rewrite (with_cache_same p s E). reflexivity.
Qed.

Lemma supported_now_cached (p : process) :
  supported_now (with_cache (supported_now p) p) = supported_now p.
Proof. reflexivity. Qed.

Section KeyCheck.
Context `{PyBuiltins}.

Lemma validate_ok (p : process) (key : string) :
  key ∈ supported_now p ->
  SearchClient._validate_provider_key key p =
    (Ok tt, with_cache (supported_now p) p).
Proof.
  intros Hin. unfold SearchClient._validate_provider_key. unfold_bind.
  rewrite get_supported_run, bool_decide_true by exact Hin. reflexivity.
Qed.

Lemma validate_fail (p : process) (key : string) :
  key ∉ supported_now p ->
  SearchClient._validate_provider_key key p =
    (Raise (ValueError (SearchClient.invalid_key_msg key (supported_now p))),
     with_cache (supported_now p) p).
Proof.
  intros Hin. unfold SearchClient._validate_provider_key. unfold_bind.
  rewrite get_supported_run, bool_decide_false by exact Hin. reflexivity.
Qed.

Lemma search_rejects (p : process) (self : loc) (spec key sep sf query : string)
    (kwargs : dict) :
  partition_colon spec = (key, sep, sf) ->
  key ∉ supported_now p ->
  SearchClient.search self spec query kwargs p =
    (Raise (ValueError (SearchClient.invalid_key_msg key (supported_now p))),
     with_cache (supported_now p) p).
Proof.
  intros Hpart Hin. unfold SearchClient.search. rewrite Hpart.
  unfold mbind at 1. unfold M_bind.
  rewrite (validate_fail p key Hin). reflexivity.
Qed.
End KeyCheck.

(** ** C2: an unknown provider key is rejected before anything is built *)

(** C2.  For every provider key outside the set [get_supported_providers]
    returns, [SearchClient.search] called with that key, alone or followed
    by a subfunction suffix, raises the ValueError whose text names the key
    and lists the supported set; the process is left as it was but for the
    registry's memo slot: no network call, no constructor call, no client
    touched. *)
Theorem C2_unknown_key_rejected `{PyBuiltins} (p : process) (self : loc)
    (query : string) (kwargs : dict) :
  let p' := with_cache (supported_now p) p in
  let rejected (spec key : string) :=
    SearchClient.search self spec query kwargs p =
      (Raise (ValueError
         ("Invalid provider key '" +:+ key +:+ "'. Supported providers: " +:+
          set_repr (supported_now p) +:+ ". " +:+
          "Make sure the provider string is formatted correctly as 'provider' or 'provider:function'.")),
       p') in
  (wire p' = wire p /\ built p' = built p /\ clients p' = clients p /\
   dicts p' = dicts p) /\
  (forall spec key sep sf,
     partition_colon spec = (key, sep, sf) ->
     key ∉ supported_now p -> rejected spec key) /\
  (forall key sub,
     no_colon key = true -> key ∉ supported_now p ->
     rejected key key /\ rejected (key +:+ ":" +:+ sub) key).
Proof.
  cbv zeta. split; [repeat split|]. split.
  - intros spec key sep sf Hpart Hin.
    apply (search_rejects p self spec key sep sf query kwargs Hpart Hin).
  - intros key sub Hkey Hin. split.
    + apply (search_rejects p self key key "" "" query kwargs); auto.
      apply partition_no_colon, Hkey.
    + apply (search_rejects p self _ key ":" sub query kwargs); auto.
      apply partition_split, Hkey.
Qed.

Lemma C2_unknown_key_rejected_witness :
  no_colon "you.com" = true /\
  ("you.com" ∉ supported_now quiet_process) /\
  SearchClient.search (H := Reference.builtins) 0 "you.com:get_news" "x" []
      quiet_process =
    (Raise (ValueError
       ("Invalid provider key 'you.com'. Supported providers: " +:+
        Reference.repr_set (supported_now quiet_process) +:+ ". " +:+
        "Make sure the provider string is formatted correctly as 'provider' or 'provider:function'.")),
     with_cache (supported_now quiet_process) quiet_process).
Proof.
  assert (Hout : "you.com" ∉ supported_now quiet_process).
  { intros Hin. apply (bool_decide_eq_true_2 _) in Hin.
    vm_compute in Hin. discriminate Hin. }
  split; [reflexivity|]. split; [exact Hout|].
  destruct (@C2_unknown_key_rejected Reference.builtins quiet_process 0 "x" [])
    as (_ & _ & Hkey).
  exact (proj2 (Hkey "you.com" "get_news" eq_refl Hout)).
Defined.

(** ** The meta-search adapter *)

Lemma sf_is_false (name : string) (sf : option string) :
  sf <> Some name -> sf_is name sf = false.
Proof.
  destruct sf as [s|]; simpl; [|reflexivity].
  intros Hne. apply String.eqb_neq. congruence.
Qed.

Lemma search_params_given (api_key : pyval) (query s : string) (kwargs : dict) :
  s <> "" ->
  dict_get "engine"
    (SerpSearchProvider.search_params api_key query (Some s) kwargs)
  = Some (PStr s).
Proof.
  intros Hs. unfold SerpSearchProvider.search_params. simpl.
  apply String.eqb_neq in Hs. rewrite Hs. simpl.
  apply dict_get_set_eq.
Qed.

Lemma search_params_default (api_key : pyval) (query : string)
    (sf : option string) (kwargs : dict) :
  sf = None \/ sf = Some "" ->
  dict_get "engine" kwargs = None ->
  dict_get "engine" (SerpSearchProvider.search_params api_key query sf kwargs)
  = Some (PStr "google").
Proof.
  intros [-> | ->] Hkw; unfold SerpSearchProvider.search_params; simpl;
    rewrite (dict_get_update_none _ _ _ Hkw); reflexivity.
Qed.

Lemma serp_search_run `{PyBuiltins} (api_key : pyval) (query : string)
    (sf : option string) (kwargs : dict) (p : process) :
  sf <> Some "youtube" ->
  SerpSearchProvider.search api_key query sf kwargs p =
    (transport p (SerpGet (SerpSearchProvider.search_params
                             api_key query sf kwargs))
       ≫= SerpSearchProvider.map_organic
             (SerpSearchProvider.search_params api_key query sf kwargs),
     with_wire (wire p ++ [SerpGet (SerpSearchProvider.search_params
                                      api_key query sf kwargs)]) p).
Proof.
  intros Hsf. unfold SerpSearchProvider.search.
  rewrite (sf_is_false _ _ Hsf). unfold send. unfold_bind.
  destruct (transport p _); reflexivity.
Qed.

(** ** C4: the engine parameter of the meta-search request *)

(** C4, as amended.  For every subfunction other than ["youtube"] the serp
    adapter sends one request and returns the mapping of whatever upstream
    answers, without rejecting anything itself.  A non-empty subfunction is
    the request's [engine] parameter verbatim.  With an empty or absent
    subfunction the [engine] parameter is ["google"] when the caller's extra
    keyword options carry no [engine] entry of their own. *)
Theorem C4_engine_parameter `{PyBuiltins} (api_key : pyval) (query : string)
    (sf : option string) (kwargs : dict) (p : process) :
  sf <> Some "youtube" ->
  exists params,
    SerpSearchProvider.search api_key query sf kwargs p =
      (transport p (SerpGet params) ≫= SerpSearchProvider.map_organic params,
       with_wire (wire p ++ [SerpGet params]) p) /\
    (forall s, sf = Some s -> s <> "" ->
       dict_get "engine" params = Some (PStr s)) /\
    (sf = None \/ sf = Some "" -> dict_get "engine" kwargs = None ->
       dict_get "engine" params = Some (PStr "google")).
Proof.
  intros Hsf.
  exists (SerpSearchProvider.search_params api_key query sf kwargs).
  split; [apply serp_search_run, Hsf|]. split.
  - intros s -> Hs. apply search_params_given, Hs.
  - apply search_params_default.
Qed.

Lemma C4_engine_parameter_witness :
  Some "bing" <> Some "youtube" /\
  exists params,
    SerpSearchProvider.search (H := Reference.builtins) (PStr "k") "cats"
        (Some "bing") [] quiet_process =
      (transport quiet_process (SerpGet params)
         ≫= SerpSearchProvider.map_organic (H := Reference.builtins) params,
       with_wire (wire quiet_process ++ [SerpGet params]) quiet_process) /\
    dict_get "engine" params = Some (PStr "bing").
Proof.
  split; [discriminate|].
  destruct (@C4_engine_parameter Reference.builtins (PStr "k") "cats"
              (Some "bing") [] quiet_process) as (params & Hrun & Hgiven & _);
    [discriminate|].
  exists params. split; [exact Hrun|].
  apply (Hgiven "bing" eq_refl). discriminate.
Defined.

(** C4, as stated, fails: with an empty subfunction and the keyword option
    [engine="bing"] the request names the engine bing, not google. *)
Lemma C4_counterexample :
  map engine_of
    (wire (snd (SerpSearchProvider.search (H := Reference.builtins)
                  (PStr "k") "cats" (Some "") [("engine", PStr "bing")]
                  quiet_process)))
  = [Some (PStr "bing")] /\
  map engine_of
    (wire (snd (SerpSearchProvider.search (H := Reference.builtins)
                  (PStr "k") "cats" None [("engine", PStr "bing")]
                  quiet_process)))
  = [Some (PStr "bing")] /\
  Some (PStr "bing") <> Some (PStr "google").
Proof. repeat split; try reflexivity. discriminate. Qed.

(** ** The client's dispatch *)

Lemma search_dispatch `{PyBuiltins} (p : process) (self : loc) (c : client)
    (spec key sep sf : string) (inst : provider) (query : string)
    (kwargs : dict) :
  partition_colon spec = (key, sep, sf) ->
  key ∈ supported_now p ->
  clients p !! self = Some c ->
  providers c !! key = Some inst ->
  dict_get "specific_function" kwargs = None ->
  SearchClient.search self spec query kwargs p =
    provider_search inst query (Some sf) kwargs
      (with_cache (supported_now p) p).
Proof.
  intros Hpart Hin Hc Hinst Hkw. unfold SearchClient.search.
  rewrite Hpart. unfold mbind at 1. unfold M_bind at 1.
  rewrite (validate_ok p key Hin).
  unfold SearchClient.this. unfold_bind.
  cbn [clients with_cache]. rewrite Hc, Hinst.
  cbn [clients with_cache]. rewrite Hc, Hinst, Hkw. reflexivity.
Qed.

Lemma default_path_run `{PyBuiltins} (inst : provider) (query : string)
    (sf : option string) (kwargs : dict) (p : process) :
  sf = None \/ sf = Some "" ->
  provider_search inst query sf kwargs p =
    (transport p (default_request inst query kwargs)
       ≫= default_mapping inst query kwargs,
     with_wire (wire p ++ [default_request inst query kwargs]) p).
Proof.
  intros [-> | ->]; destruct inst; simpl;
    unfold SerpSearchProvider.search, SerpSearchProvider.search_params,
           TavilySearchProvider.search, YouSearchProvider.search,
           YouSearchProvider.search_request, send; simpl; unfold_bind;
    match goal with |- context [transport p ?r] =>
      destruct (transport p r) end; reflexivity.
Qed.

(** ** C3: the provider string is split at its first colon *)




(** ** The tags of the two side paths *)

Lemma res_map_inv {A B} (f : A -> res B) (l : list A) (bs : list B) :
  res_map f l = Ok bs -> Forall2 (fun a b => f a = Ok b) l bs.
Proof.
  revert bs. induction l as [|a l IH]; simpl; intros bs E.
  - inversion E. constructor.
  - unfold_bind. destruct (f a) as [b|] eqn:Eb; [|discriminate].
    destruct (res_map f l) as [bs'|]; [|discriminate].
    inversion E; subst. constructor; auto.
Qed.

Lemma Forall2_right {A B} (R : A -> B -> Prop) (Q : B -> Prop)
    (l : list A) (bs : list B) :
  (forall a b, R a b -> Q b) -> Forall2 R l bs -> Forall Q bs.
Proof. intros HQ. induction 1; constructor; eauto. Qed.

Ltac py_get_cases :=
  repeat match goal with
         | E : context [py_get ?v ?k ?d] |- _ =>
             destruct (py_get v k d); try discriminate E
         end.





(** ** C5: the two paths of the you.com adapter *)



(** ** C7: the youtube path of the serp adapter *)



Example youtube_line :
  SerpSearchProvider.map_video (H := Reference.builtins)
    (PDict video_response) =
  Ok [{| title := PStr "clip"; url := PStr "u";
         content := PStr "Duration: 3:05 | Views: 1234 | Channel: ch | Description: d";
         source := PStr "serpapi:youtube" |}].
Proof. reflexivity. Qed.

(** ** C9: the credential of an adapter *)

Lemma resolve_run (api_key : pyval) (var msg : string) (p : process) :
  resolve_api_key api_key var msg p =
    (let fallback := match environ p !! var with
                     | Some v => PStr v
                     | None => PNone
                     end in
     let key := if truthy api_key then api_key else fallback in
     if truthy key then Ok key else Raise (ValueError msg), p).
Proof.
  unfold resolve_api_key, getenv. unfold_bind.
  destruct (truthy (if truthy api_key then api_key else _)); reflexivity.
Qed.

Lemma adapter_init_run (a : adapter) (api_key : pyval) (p : process) :
  adapter_init a api_key p =
    (match resolve_api_key api_key (adapter_var a) (adapter_msg a) p with
     | (Ok key, _) => Ok (adapter_object a key)
     | (Raise e, _) => Raise e
     end, p).
Proof.
  destruct a; simpl;
    unfold SerpSearchProvider.init, TavilySearchProvider.init,
           YouSearchProvider.init;
    unfold mbind, M_bind; rewrite resolve_run; simpl;
    destruct (truthy (if truthy api_key then api_key else _)); reflexivity.
Qed.

(** C9, as amended.  For each of the three adapters: constructed with no
    explicit key (or an empty one) while its environment variable is unset
    (or empty), the constructor raises the ValueError asking for the key and
    leaves the process untouched, so no network call has been made; a
    non-empty explicit key makes it succeed with that key, and without one a
    non-empty value of the environment variable makes it succeed with that
    value. *)
Theorem C9_credential_resolution (a : adapter) (api_key : pyval)
    (p : process) :
  (truthy api_key = true ->
     adapter_init a api_key p = (Ok (adapter_object a api_key), p)) /\
  (forall v,
     truthy api_key = false ->
     environ p !! adapter_var a = Some v -> v <> "" ->
     adapter_init a api_key p = (Ok (adapter_object a (PStr v)), p)) /\
  (truthy api_key = false ->
     environ p !! adapter_var a = None \/
     environ p !! adapter_var a = Some "" ->
     adapter_init a api_key p = (Raise (ValueError (adapter_msg a)), p)).
Proof.
  rewrite adapter_init_run, resolve_run. repeat apply conj.
  - intros Ht. simpl. rewrite Ht, Ht. reflexivity.
  - intros v Ht Hv Hne. simpl. rewrite Ht, Hv. simpl.
    apply String.eqb_neq in Hne. rewrite Hne. reflexivity.
  - intros Ht [Hv | Hv]; simpl; rewrite Ht, Hv; reflexivity.
Qed.

Lemma C9_credential_resolution_witness :
  truthy PNone = false /\
  environ quiet_process !! adapter_var You = None /\
  adapter_init You PNone quiet_process =
    (Raise (ValueError (adapter_msg You)), quiet_process) /\
  truthy (PStr "k") = true /\
  adapter_init You (PStr "k") quiet_process =
    (Ok (adapter_object You (PStr "k")), quiet_process).
Proof.
  destruct (C9_credential_resolution You PNone quiet_process)
    as (_ & _ & Hnone).
  destruct (C9_credential_resolution You (PStr "k") quiet_process)
    as (Hkey & _ & _).
  split; [reflexivity|]. split; [reflexivity|].
  split; [apply Hnone; [reflexivity|left; reflexivity]|].
  split; [reflexivity|]. apply Hkey. reflexivity.
Defined.

(** C9, as stated, fails: an explicit key that is the empty string is
    supplied and the constructor still raises, for each adapter; and so does
    an environment variable that is set to the empty string. *)
Lemma C9_counterexample :
  YouSearchProvider.init (PStr "") quiet_process =
    (Raise (ValueError YouSearchProvider.key_required), quiet_process) /\
  SerpSearchProvider.init (PStr "") quiet_process =
    (Raise (ValueError SerpSearchProvider.key_required), quiet_process) /\
  TavilySearchProvider.init (PStr "") quiet_process =
    (Raise (ValueError TavilySearchProvider.key_required), quiet_process) /\
  fst (YouSearchProvider.init PNone
         (start repo_dir {[ "YOU_COM_API_KEY" := "" ]}
                (fun _ => Ok (PDict [])))) =
    Raise (ValueError YouSearchProvider.key_required).
Proof. repeat split; reflexivity. Qed.

(** ** C6: the end-to-end scenario *)

Lemma repo_scan :
  SearchProviderFactory.scan repo_dir = {[ "serp"; "tavily"; "you" ]}.
Proof. vm_compute. reflexivity. Qed.

Lemma serp_in_repo : "serp" ∈ SearchProviderFactory.scan repo_dir.
Proof. rewrite repo_scan. set_solver. Qed.

Lemma init_configured `{PyBuiltins} (env : gmap string string)
    (upstream : request -> res pyval) :
  SearchClient.init (Some 1) (configured env upstream) =
    (Ok 0,
     {| providers_dir := repo_dir; environ := env; transport := upstream;
        supported_cache := Some (SearchProviderFactory.scan repo_dir);
        dicts := {[ 1 := serp_configs ]};
        clients := [{| providers := {[ "serp" := SerpProvider (PStr "k") ]};
                       provider_configs := 1 |}];
        wire := [];
        built := [("SerpSearchProvider", PDict [("api_key", PStr "k")])] |}).
Proof. vm_compute. reflexivity. Qed.

(** C6, as amended.  With the configuration [{"serp": {"api_key": "k"}}] and
    an upstream answer whose [organic_results] holds two entries,
    [search("serp", "cats")] returns exactly two results, and the source of
    each is the string ["serpapi:google"]. *)
Theorem C6_end_to_end `{PyBuiltins} (env : gmap string string)
    (upstream : request -> res pyval) (response e1 e2 : dict) :
  upstream (SerpGet [("q", PStr "cats"); ("api_key", PStr "k");
                     ("engine", PStr "google")]) = Ok (PDict response) ->
  dict_get "organic_results" response = Some (PList [PDict e1; PDict e2]) ->
  exists r1 r2,
    fst (end_to_end env upstream) = Ok [r1; r2] /\
    source r1 = PStr "serpapi:google" /\
    source r2 = PStr "serpapi:google".
Proof.
  intros Hup Hres. unfold end_to_end. rewrite init_configured.
  erewrite search_dispatch with (key := "serp") (sep := "") (sf := "")
    (inst := SerpProvider (PStr "k"));
    [|reflexivity|exact serp_in_repo|reflexivity|reflexivity|reflexivity].
  rewrite default_path_run by (right; reflexivity).
  cbn [fst transport with_cache default_request dict_update fold_left
       dict_set fst snd String.eqb Ascii.eqb Bool.eqb].
  rewrite Hup. cbn [default_mapping].
  unfold SerpSearchProvider.map_organic, py_get. unfold_bind.
  rewrite Hres. simpl.
  eexists _, _. repeat split.
Qed.

Lemma C6_end_to_end_witness :
  exists r1 r2,
    fst (end_to_end (H := Reference.builtins) ∅
           (fun _ => Ok (PDict two_organic))) = Ok [r1; r2] /\
    source r1 = PStr "serpapi:google" /\
    source r2 = PStr "serpapi:google".
Proof.
  exact (@C6_end_to_end Reference.builtins ∅
           (fun _ => Ok (PDict two_organic)) two_organic _ _
           eq_refl eq_refl).
Defined.

(** C6, as stated, fails: the two results of the scenario carry the source
    ["serpapi:google"], which is not the string ["serp:google"]. *)
Lemma C6_counterexample :
  fst (end_to_end (H := Reference.builtins) ∅
         (fun _ => Ok (PDict two_organic))) =
    Ok [{| title := PStr "a"; url := PStr "u1"; content := PStr "s1";
           source := PStr "serpapi:google" |};
        {| title := PStr "b"; url := PStr "u2"; content := PStr "s2";
           source := PStr "serpapi:google" |}] /\
  PStr "serpapi:google" <> PStr "serp:google".
Proof. split; [vm_compute; reflexivity|discriminate]. Qed.

(** ** C8: the registry scan *)

Lemma prefix_refl (s : string) : String.prefix s s = true.
Proof.
  induction s as [|c s IH]; simpl; [reflexivity|].
  destruct (ascii_dec c c); [exact IH|contradiction].
Qed.

Lemma remove_skip_all (old s : string) :
  remove_from old (String.length s) s = "".
Proof. induction s as [|c s IH]; simpl; [reflexivity|exact IH]. Qed.

Lemma length_append (s t : string) :
  String.length (s +:+ t) = (String.length s + String.length t)%nat.
Proof. induction s as [|c s IH]; simpl; [reflexivity|]. rewrite IH. lia. Qed.

Lemma append_longer (k s : string) (c : ascii) : String c k +:+ s <> s.
Proof.
  intros E. apply (f_equal String.length) in E.
  rewrite length_append in E. simpl in E. lia.
Qed.

(** Taking the suffix off once gives back the key, whatever the key is. *)
Lemma strip_suffix_append (old k : string) : strip_suffix old (k +:+ old) = k.
Proof.
  induction k as [|c k IH].
  - simpl. destruct old; simpl.
    + reflexivity.
    + rewrite Ascii.eqb_refl, String.eqb_refl. reflexivity.
  - rewrite append_cons. cbn [strip_suffix].
    destruct (String.eqb_spec (String c (k +:+ old)) old) as [E|_].
    + exfalso. exact (append_longer k old c E).
    + rewrite IH. reflexivity.
Qed.

(** Removing every occurrence gives back the key only when the suffix
    occurs once. *)
Lemma str_remove_append (old k : string) :
  old <> "" -> ends_once old k = true -> str_remove old (k +:+ old) = k.
Proof.
  intros Hold. unfold str_remove.
  apply String.eqb_neq in Hold. rewrite Hold.
  induction k as [|c k IH]; intros Hk.
  - simpl. destruct old as [|a old]; [discriminate|].
    change ("" +:+ String a old) with (String a old).
    cbn [remove_from]. rewrite prefix_refl.
    replace (String.length (String a old) - 1)%nat with (String.length old)
      by (cbn [String.length]; lia).
    apply remove_skip_all.
  - cbn [ends_once] in Hk. apply andb_prop in Hk as [Hp Hk].
    apply negb_true_iff in Hp. rewrite append_cons in Hp.
    rewrite append_cons. cbn [remove_from].
    rewrite Hp, (IH Hk). reflexivity.
Qed.

Lemma key_of_single_suffix (old k : string) :
  old <> "" -> ends_once old k = true ->
  str_remove old (k +:+ old) = strip_suffix old (k +:+ old).
Proof.
  intros Hold Hk. rewrite strip_suffix_append. apply str_remove_append; auto.
Qed.

Lemma repo_scan_by_suffix :
  SearchProviderFactory.scan repo_dir = scan_by_suffix repo_dir.
Proof. vm_compute. reflexivity. Qed.

(** The memo: whatever the first call returned is what every later call
    returns, also when the directory has changed in between. *)
Lemma supported_memoised (p : process) (later : process) :
  supported_cache later =
    supported_cache (snd (SearchProviderFactory.get_supported_providers p)) ->
  fst (SearchProviderFactory.get_supported_providers later) =
    fst (SearchProviderFactory.get_supported_providers p) /\
  snd (SearchProviderFactory.get_supported_providers later) = later.
Proof.
  rewrite (get_supported_run p). cbn [fst snd with_cache supported_cache].
  intros Hc. unfold SearchProviderFactory.get_supported_providers.
  rewrite Hc. auto.
Qed.

(** C8 at a directory whose one file holds the suffix twice in its stem:
    [str.replace] removes both occurrences, so the registry returns the key
    [web], where stripping the suffix gives [web_search_provider]; and the
    module [create_provider] would import for [web] is not that file. *)
Theorem C8_scan_removes_every_occurrence :
  fst (SearchProviderFactory.get_supported_providers
         (start doubled_dir ∅ (fun _ => Ok (PDict [])))) = Ok {[ "web" ]} /\
  scan_by_suffix doubled_dir = {[ "web_search_provider" ]} /\
  SearchProviderFactory.scan doubled_dir <> scan_by_suffix doubled_dir /\
  SearchProviderFactory.module_path_of "web" +:+ ".py" <>
    "aisuite.search_providers." +:+ "web_search_provider_search_provider.py".
Proof.
  assert (H1 : SearchProviderFactory.scan doubled_dir = {[ "web" ]})
    by (vm_compute; reflexivity).
  assert (H2 : scan_by_suffix doubled_dir = {[ "web_search_provider" ]})
    by (vm_compute; reflexivity).
  split; [|split; [|split]].
  - unfold SearchProviderFactory.get_supported_providers, start.
    cbn [supported_cache providers_dir fst]. rewrite H1. reflexivity.
  - exact H2.
  - rewrite H1, H2. intros E.
    assert (Hin : "web" ∈ ({[ "web_search_provider" ]} : gset string))
      by (rewrite <- E; set_solver).
    apply elem_of_singleton in Hin. discriminate Hin.
  - discriminate.
Qed.

(** ** What a computation leaves alone *)

Section Preserves.
Context {X : Type} (f : process -> X).

Lemma preserves_ret {A} (a : A) : preserves f (mret a).
Proof. intros p. reflexivity. Qed.

Lemma preserves_raise {A} (e : exn) : preserves f (raise e : M A).
Proof. intros p. reflexivity. Qed.

Lemma preserves_lift {A} (r : res A) : preserves f (lift r).
Proof. intros p. reflexivity. Qed.

Lemma preserves_gets {A} (g : process -> A) : preserves f (gets g).
Proof. intros p. reflexivity. Qed.

Lemma preserves_modify (g : process -> process) :
  (forall p, f (g p) = f p) -> preserves f (modify g).
Proof. intros Hg p. apply Hg. Qed.

Lemma preserves_bind {A B} (m : M A) (k : A -> M B) :
  preserves f m -> (forall a, preserves f (k a)) -> preserves f (m ≫= k).
Proof.
  intros Hm Hk p. unfold mbind, M_bind.
  specialize (Hm p). destruct (m p) as [[a|e] p1]; simpl in *.
  - rewrite (Hk a p1). exact Hm.
  - exact Hm.
Qed.

Lemma preserves_this (self : loc) : preserves f (SearchClient.this self).
Proof.
  intros p. unfold SearchClient.this.
  destruct (clients p !! self); reflexivity.
Qed.

Lemma preserves_resolve (api_key : pyval) (var msg : string) :
  preserves f (resolve_api_key api_key var msg).
Proof. intros p. rewrite resolve_run. reflexivity. Qed.

Lemma preserves_adapter_init (a : adapter) (api_key : pyval) :
  preserves f (adapter_init a api_key).
Proof. intros p. rewrite adapter_init_run. reflexivity. Qed.
End Preserves.

Lemma preserves_send {X} (f : process -> X) (r : request) :
  (forall w p, f (with_wire w p) = f p) -> preserves f (send r).
Proof. intros Hf p. apply Hf. Qed.

Lemma preserves_get_supported {X} (f : process -> X) :
  (forall s p, f (with_cache s p) = f p) ->
  preserves f SearchProviderFactory.get_supported_providers.
Proof. intros Hf p. rewrite get_supported_run. apply Hf. Qed.

Lemma preserves_provider_search `{PyBuiltins} {X} (f : process -> X)
    (inst : provider) (query : string) (sf : option string) (kwargs : dict) :
  (forall w p, f (with_wire w p) = f p) ->
  preserves f (provider_search inst query sf kwargs).
Proof.
  intros Hf. destruct inst; simpl;
    unfold SerpSearchProvider.search, SerpSearchProvider.youtube_search,
           TavilySearchProvider.search, YouSearchProvider.search,
           YouSearchProvider.get_news;
    repeat match goal with |- context [if ?b then _ else _] =>
             destruct b end;
    apply preserves_bind;
    auto using preserves_send, preserves_lift.
Qed.

Lemma preserves_validate `{PyBuiltins} {X} (f : process -> X) (key : string) :
  (forall s p, f (with_cache s p) = f p) ->
  preserves f (SearchClient._validate_provider_key key).
Proof.
  intros Hf. unfold SearchClient._validate_provider_key.
  apply preserves_bind; [apply preserves_get_supported, Hf|].
  intros s. destruct (bool_decide _);
    [apply preserves_ret|apply preserves_raise].
Qed.

(** The classes the factory can find are the three constructors. *)
Lemma factory_class (provider_key : string) module
    (provider_class : pyval -> M provider) :
  SearchProviderFactory.assoc
    (SearchProviderFactory.module_path_of provider_key)
    SearchProviderFactory.modules = Some module ->
  SearchProviderFactory.assoc
    (SearchProviderFactory.class_name_of provider_key) module
    = Some provider_class ->
  exists a, provider_class = adapter_init a.
Proof.
  unfold SearchProviderFactory.modules. cbn [SearchProviderFactory.assoc].
  repeat match goal with |- context [if ?b then _ else _] =>
           destruct b end; try discriminate;
    intros E; inversion E; subst; cbn [SearchProviderFactory.assoc];
    match goal with |- context [if ?b then _ else _] =>
      destruct b end; try discriminate;
    intros E'; inversion E'.
  - exists Serp. reflexivity.
  - exists Tavily. reflexivity.
  - exists You. reflexivity.
Qed.

Lemma preserves_create_provider {X} (f : process -> X)
    (provider_key : string) (config : pyval) :
  (forall b p, f (with_built b p) = f p) ->
  preserves f (SearchProviderFactory.create_provider provider_key config).
Proof.
  intros Hf. unfold SearchProviderFactory.create_provider.
  destruct (SearchProviderFactory.assoc _ SearchProviderFactory.modules)
    as [module|] eqn:Em; [|apply preserves_raise].
  destruct (SearchProviderFactory.assoc _ module) as [cls|] eqn:Ec;
    [|apply preserves_raise].
  destruct (factory_class _ _ _ Em Ec) as [a ->].
  apply preserves_bind; [apply preserves_modify; intros; apply Hf|].
  intros _. apply preserves_bind; [apply preserves_lift|].
  intros k. apply preserves_adapter_init.
Qed.

(** ** The client's dicts and references *)

Lemma refs_alter (g : gmap string provider -> gmap string provider)
    (self : loc) (l : list client) :
  map provider_configs
    (alter (fun c => {| providers := g (providers c);
                        provider_configs := provider_configs c |}) self l)
  = map provider_configs l.
Proof.
  revert self. induction l as [|c l IH]; intros [|self]; simpl;
    try reflexivity.
  f_equal. apply IH.
Qed.

Lemma preserves_set_provider_dicts (self : loc) (key : string)
    (inst : provider) :
  preserves dicts (SearchClient.set_provider self key inst).
Proof. intros p. reflexivity. Qed.

Lemma preserves_set_provider_refs (self : loc) (key : string)
    (inst : provider) :
  preserves refs (SearchClient.set_provider self key inst).
Proof.
  intros p. unfold SearchClient.set_provider, modify, refs.
  cbn [snd clients with_clients]. apply refs_alter.
Qed.

Lemma preserves_set_provider_built (self : loc) (key : string)
    (inst : provider) :
  preserves built (SearchClient.set_provider self key inst).
Proof. intros p. reflexivity. Qed.

Section Frames.
Context `{PyBuiltins} {X : Type} (f : process -> X).
Hypothesis f_cache : forall s p, f (with_cache s p) = f p.
Hypothesis f_built : forall b p, f (with_built b p) = f p.
Hypothesis f_set : forall self key inst,
  preserves f (SearchClient.set_provider self key inst).

Lemma preserves_initialize_each (self : loc) (items : dict) :
  preserves f (SearchClient.initialize_each self items).
Proof.
  induction items as [|[key config] items IH]; cbn [SearchClient.initialize_each].
  - apply preserves_ret.
  - apply preserves_bind; [apply preserves_validate, f_cache|]. intros _.
    apply preserves_bind; [apply preserves_create_provider, f_built|].
    intros inst. apply preserves_bind; [apply f_set|]. intros _. exact IH.
Qed.

Lemma preserves_initialize_providers (self : loc) :
  preserves f (SearchClient._initialize_providers self).
Proof.
  unfold SearchClient._initialize_providers.
  apply preserves_bind; [apply preserves_this|]. intros c.
  apply preserves_bind; [apply preserves_gets|]. intros items.
  apply preserves_initialize_each.
Qed.
End Frames.

Lemma init_dicts `{PyBuiltins} (arg : option loc) (p : process) :
  dicts (snd (SearchClient.init arg p)) = dicts p.
Proof.
  unfold SearchClient.init.
  assert (Hp : preserves dicts (SearchClient.init arg)).
  { unfold SearchClient.init.
    apply preserves_bind; [apply preserves_gets|]. intros self.
    apply preserves_bind; [apply preserves_modify; reflexivity|]. intros _.
    apply preserves_bind; [|intros; apply preserves_ret].
    apply preserves_initialize_providers; try reflexivity.
    apply preserves_set_provider_dicts. }
  apply Hp.
Qed.

Lemma init_refs `{PyBuiltins} (arg : option loc) (p : process) :
  refs (snd (SearchClient.init arg p)) =
    (refs p ++ [default default_configs arg])%list.
Proof.
  unfold SearchClient.init, gets, modify. unfold mbind at 1 2. unfold M_bind at 1 2.
  set (p1 := with_clients _ p).
  assert (Hp : preserves refs
            (SearchClient._initialize_providers (length (clients p)) ≫=
             (fun _ => mret (length (clients p))))).
  { apply preserves_bind; [|intros; apply preserves_ret].
    apply preserves_initialize_providers; try reflexivity.
    apply preserves_set_provider_refs. }
  rewrite (Hp p1). unfold p1, refs. cbn [clients with_clients].
  rewrite map_app. reflexivity.
Qed.

Lemma init_self `{PyBuiltins} (arg : option loc) (p : process) (self : loc) :
  fst (SearchClient.init arg p) = Ok self -> self = length (clients p).
Proof.
  unfold SearchClient.init, gets, modify. unfold mbind at 1 2. unfold M_bind at 1 2.
  unfold mbind, M_bind.
  destruct (SearchClient._initialize_providers _ _) as [[u|e] p2]; simpl;
    intros E; inversion E. reflexivity.
Qed.

(** A client built without the argument refers to the default dict. *)
Lemma init_default_client `{PyBuiltins} (p : process) (self : loc) :
  fst (SearchClient.init None p) = Ok self ->
  exists c, clients (snd (SearchClient.init None p)) !! self = Some c /\
            provider_configs c = default_configs.
Proof.
  intros Hself. apply init_self in Hself. subst self.
  pose proof (init_refs None p) as Hrefs. unfold refs in Hrefs.
  assert (Hl : map provider_configs (clients (snd (SearchClient.init None p)))
                 !! length (clients p) = Some default_configs).
  { rewrite Hrefs. rewrite lookup_app_r by (rewrite length_map; lia).
    rewrite length_map, Nat.sub_diag. reflexivity. }
  change (map provider_configs ?l) with (provider_configs <$> l) in Hl.
  rewrite list_lookup_fmap in Hl.
  destruct (clients (snd (SearchClient.init None p)) !! length (clients p))
    as [c|]; [|discriminate].
  exists c. split; [reflexivity|]. simpl in Hl. congruence.
Qed.

Lemma refs_lookup (p p' : process) (l : loc) (c : client) :
  refs p' = refs p -> clients p !! l = Some c ->
  exists c', clients p' !! l = Some c' /\
             provider_configs c' = provider_configs c.
Proof.
  unfold refs. intros Hrefs Hc.
  assert (Hl : (provider_configs <$> clients p') !! l
               = Some (provider_configs c)).
  { change (provider_configs <$> clients p')
      with (map provider_configs (clients p')).
    rewrite Hrefs.
    change (map provider_configs (clients p))
      with (provider_configs <$> clients p).
    rewrite list_lookup_fmap, Hc. reflexivity. }
  rewrite list_lookup_fmap in Hl.
  destruct (clients p' !! l) as [c'|]; [|discriminate].
  exists c'. split; [reflexivity|]. simpl in Hl. congruence.
Qed.

Lemma configure_run `{PyBuiltins} (self : loc) (c : client) (new : dict)
    (p : process) :
  clients p !! self = Some c ->
  SearchClient.configure self (Some new) p =
    SearchClient._initialize_providers self
      (with_dicts (<[provider_configs c :=
                       dict_update (deref p (provider_configs c)) new]>
                     (dicts p)) p).
Proof.
  intros Hc. unfold SearchClient.configure, SearchClient.this, modify.
  unfold mbind at 1 2. unfold M_bind at 1 2. rewrite Hc. reflexivity.
Qed.

Lemma configure_dicts `{PyBuiltins} (self : loc) (c : client) (new : dict)
    (p : process) :
  clients p !! self = Some c ->
  dicts (snd (SearchClient.configure self (Some new) p)) =
    <[provider_configs c := dict_update (deref p (provider_configs c)) new]>
      (dicts p) /\
  refs (snd (SearchClient.configure self (Some new) p)) = refs p.
Proof.
  intros Hc. rewrite (configure_run self c new p Hc). split.
  - rewrite (preserves_initialize_providers dicts); try reflexivity.
    apply preserves_set_provider_dicts.
  - rewrite (preserves_initialize_providers refs); try reflexivity.
    apply preserves_set_provider_refs.
Qed.

Lemma dict_get_absent (k : string) (e : dict) :
  k ∉ map fst e -> dict_get k e = None.
Proof.
  induction e as [|[k0 v0] e IH]; simpl; intros Hk; [reflexivity|].
  destruct (String.eqb_spec k0 k) as [->|_].
  - exfalso. apply Hk. left.
  - apply IH. intros Hin. apply Hk. right. exact Hin.
Qed.

(** After an update with a dict, each of its entries reads back. *)
Lemma dict_get_update_in (k : string) (v : pyval) (e d : dict) :
  NoDup (map fst e) -> (k, v) ∈ e ->
  dict_get k (dict_update d e) = Some v.
Proof.
  unfold dict_update. revert d.
  induction e as [|[k0 v0] e IH]; intros d Hnd Hin.
  - inversion Hin.
  - simpl in Hnd. apply NoDup_cons in Hnd as [Hk0 Hnd].
    apply elem_of_cons in Hin as [E|Hin].
    + inversion E; subst. cbn [fold_left fst snd].
      change (fold_left _ e ?d0) with (dict_update d0 e).
      rewrite dict_get_update_none by (apply dict_get_absent, Hk0).
      apply dict_get_set_eq.
    + cbn [fold_left]. apply IH; assumption.
Qed.

Lemma bind_tail {A B X} (f : process -> X) (m : M A) (k : A -> M B)
    (p : process) :
  (forall a, preserves f (k a)) -> f (snd ((m ≫= k) p)) = f (snd (m p)).
Proof.
  intros Hk. unfold mbind, M_bind.
  destruct (m p) as [[a|e] p1]; simpl; [apply Hk|reflexivity].
Qed.

Lemma create_provider_built (provider_key : string) (config : pyval)
    (p : process) :
  In provider_key ["serp"; "tavily"; "you"] ->
  built (snd (SearchProviderFactory.create_provider provider_key config p)) =
    (built p ++ [(SearchProviderFactory.class_name_of provider_key, config)])%list.
Proof.
  intros Hk.
  assert (exists a,
    SearchProviderFactory.create_provider provider_key config =
      (modify (fun p => with_built
         (built p ++ [(SearchProviderFactory.class_name_of provider_key,
                       config)]) p)
       ≫= fun _ => lift (SearchProviderFactory.bind_api_key config)
       ≫= adapter_init a)) as [a ->].
  { simpl in Hk. destruct Hk as [<-|[<-|[<-|[]]]].
    - exists Serp. reflexivity.
    - exists Tavily. reflexivity.
    - exists You. reflexivity. }
  rewrite (bind_tail built).
  - reflexivity.
  - intros _. apply preserves_bind; [apply preserves_lift|].
    intros k. apply preserves_adapter_init.
Qed.

(** A client that has no adapter yet for a key builds one from the entry
    its dict holds for that key. *)
Lemma search_builds_on_demand `{PyBuiltins} (p : process) (self : loc)
    (c : client) (key : string) (config : pyval) (query : string)
    (kwargs : dict) :
  clients p !! self = Some c ->
  key ∈ supported_now p ->
  providers c !! key = None ->
  dict_get key (deref p (provider_configs c)) = Some config ->
  In key ["serp"; "tavily"; "you"] ->
  built (snd (SearchClient.search self key query kwargs p)) =
    (built p ++ [(SearchProviderFactory.class_name_of key, config)])%list.
Proof.
  intros Hc Hin Hnone Hcfg Hkey.
  assert (Hpart : partition_colon key = (key, "", "")).
  { simpl in Hkey. destruct Hkey as [<-|[<-|[<-|[]]]]; reflexivity. }
  unfold SearchClient.search. rewrite Hpart.
  unfold mbind at 1. unfold M_bind at 1. rewrite (validate_ok p key Hin).
  unfold mbind at 1. unfold M_bind at 1. unfold SearchClient.this at 1.
  cbn [clients with_cache]. rewrite Hc, Hnone.
  rewrite (bind_tail built).
  - unfold gets at 1. unfold mbind at 1. unfold M_bind at 1.
    change (deref (with_cache (supported_now p) p) (provider_configs c))
      with (deref p (provider_configs c)).
    rewrite Hcfg. cbn [default from_option id].
    rewrite (bind_tail built).
    + rewrite create_provider_built by exact Hkey. reflexivity.
    + intros inst. apply preserves_set_provider_built.
  - intros _. apply preserves_bind; [apply preserves_this|]. intros c'.
    destruct (providers c' !! key); [|apply preserves_raise].
    destruct (dict_get "specific_function" kwargs); [apply preserves_raise|].
    apply preserves_provider_search. reflexivity.
Qed.

(** ** C10: the default dict is one object *)

Lemma configure_shared `{PyBuiltins} (p : process) (l1 l2 : loc)
    (c1 c2 : client) (new : dict) :
  clients p !! l1 = Some c1 -> clients p !! l2 = Some c2 ->
  provider_configs c1 = default_configs ->
  provider_configs c2 = default_configs ->
  exists c2',
    clients (snd (SearchClient.configure l1 (Some new) p)) !! l2 = Some c2' /\
    provider_configs c2' = default_configs /\
    deref (snd (SearchClient.configure l1 (Some new) p)) (provider_configs c2')
      = dict_update (deref p default_configs) new.
Proof.
  intros H1 H2 E1 E2.
  destruct (configure_dicts l1 c1 new p H1) as [Hd Hr].
  destruct (refs_lookup p _ l2 c2 Hr H2) as (c2' & Hc2' & Ec2').
  exists c2'. split; [exact Hc2'|]. split; [congruence|].
  unfold deref at 1. rewrite Hd, Ec2', E2, E1, lookup_insert_eq.
  reflexivity.
Qed.

(** C10.  Every client built without the [provider_configs] argument holds
    a reference to the one default dict.  [configure] on one such client
    updates that dict in place, whether or not the eager construction that
    follows raises, so every other such client, built before or after,
    reads the new entries as its own [provider_configs]; and when such a
    client then builds an adapter on demand in [search], the configuration
    it passes to the constructor is the shared entry. *)
Theorem C10_shared_default_dict `{PyBuiltins} (p : process) :
  (forall self,
     fst (SearchClient.init None p) = Ok self ->
     exists c,
       clients (snd (SearchClient.init None p)) !! self = Some c /\
       provider_configs c = default_configs /\
       dicts (snd (SearchClient.init None p)) = dicts p) /\
  (forall l1 l2 c1 c2 new,
     clients p !! l1 = Some c1 -> clients p !! l2 = Some c2 ->
     provider_configs c1 = default_configs ->
     provider_configs c2 = default_configs ->
     let p' := snd (SearchClient.configure l1 (Some new) p) in
     exists c2',
       clients p' !! l2 = Some c2' /\
       provider_configs c2' = default_configs /\
       deref p' (provider_configs c2')
         = dict_update (deref p default_configs) new /\
       (forall k v,
          NoDup (map fst new) -> (k, v) ∈ new ->
          dict_get k (deref p' (provider_configs c2')) = Some v)) /\
  (forall l1 c1 new l3,
     clients p !! l1 = Some c1 ->
     provider_configs c1 = default_configs ->
     let p' := snd (SearchClient.configure l1 (Some new) p) in
     fst (SearchClient.init None p') = Ok l3 ->
     exists c3,
       clients (snd (SearchClient.init None p')) !! l3 = Some c3 /\
       provider_configs c3 = default_configs /\
       deref (snd (SearchClient.init None p')) (provider_configs c3)
         = dict_update (deref p default_configs) new) /\
  (forall l2 c2 key config query kwargs,
     clients p !! l2 = Some c2 ->
     provider_configs c2 = default_configs ->
     key ∈ supported_now p ->
     providers c2 !! key = None ->
     dict_get key (deref p default_configs) = Some config ->
     In key ["serp"; "tavily"; "you"] ->
     built (snd (SearchClient.search l2 key query kwargs p)) =
       (built p ++ [(SearchProviderFactory.class_name_of key, config)])%list).
Proof.
  split; [|split; [|split]].
  - intros self Hself.
    destruct (init_default_client p self Hself) as (c & Hc & Ec).
    exists c. split; [exact Hc|]. split; [exact Ec|]. apply init_dicts.
  - intros l1 l2 c1 c2 new H1 H2 E1 E2 p'.
    destruct (configure_shared p l1 l2 c1 c2 new H1 H2 E1 E2)
      as (c2' & Hc2' & Ec2' & Hd).
    exists c2'. split; [exact Hc2'|]. split; [exact Ec2'|].
    split; [exact Hd|].
    intros k v Hnd Hin. unfold p'. rewrite Hd.
    apply dict_get_update_in; assumption.
  - intros l1 c1 new l3 H1 E1 p' Hl3.
    destruct (init_default_client p' l3 Hl3) as (c3 & Hc3 & Ec3).
    exists c3. split; [exact Hc3|]. split; [exact Ec3|].
    unfold deref. rewrite init_dicts, Ec3.
    destruct (configure_dicts l1 c1 new p H1) as [Hd _].
    unfold p'. rewrite Hd, E1, lookup_insert_eq. reflexivity.
  - intros l2 c2 key config query kwargs H2 E2 Hin Hnone Hcfg Hkey.
    apply (search_builds_on_demand p l2 c2); try assumption.
    rewrite E2. exact Hcfg.
Qed.

Lemma C10_shared_default_dict_witness :
  clients two_clients !! 0 = Some bare_client /\
  clients two_clients !! 1 = Some bare_client /\
  exists c2',
    clients (snd (SearchClient.configure (H := Reference.builtins) 0
                    (Some serp_configs) two_clients)) !! 1 = Some c2' /\
    provider_configs c2' = default_configs /\
    deref (snd (SearchClient.configure (H := Reference.builtins) 0
                  (Some serp_configs) two_clients)) (provider_configs c2')
      = dict_update (deref two_clients default_configs) serp_configs.
Proof.
  assert (H0 : clients two_clients !! 0 = Some bare_client)
    by (vm_compute; reflexivity).
  assert (H1 : clients two_clients !! 1 = Some bare_client)
    by (vm_compute; reflexivity).
  split; [exact H0|]. split; [exact H1|].
  destruct (@C10_shared_default_dict Reference.builtins two_clients)
    as (_ & Hshare & _ & _).
  destruct (Hshare 0 1 bare_client bare_client serp_configs H0 H1
              eq_refl eq_refl) as (c2' & Hc & Ec & Hd & _).
  exists c2'. auto.
Defined.

Example shared_entry_seen :
  deref (snd (SearchClient.configure (H := Reference.builtins) 0
                (Some serp_configs) two_clients)) default_configs
  = serp_configs.
Proof. vm_compute. reflexivity. Qed.

(** * More of the code *)

(** ** One round trip per search *)

Lemma provider_search_run `{PyBuiltins} (inst : provider) (query : string)
    (sf : option string) (kwargs : dict) (p : process) :
  provider_search inst query sf kwargs p =
    (transport p (request_of inst query sf kwargs)
       ≫= mapper_of inst query sf kwargs,
     with_wire (wire p ++ [request_of inst query sf kwargs]) p).
Proof.
  destruct inst; cbn [provider_search request_of mapper_of];
    unfold SerpSearchProvider.search, SerpSearchProvider.youtube_search,
           TavilySearchProvider.search, YouSearchProvider.search,
           YouSearchProvider.get_news, send;
    try match goal with |- context [sf_is ?n sf] => destruct (sf_is n sf) end;
    unfold_bind;
    match goal with |- context [transport p ?r] =>
      destruct (transport p r) end; reflexivity.
Qed.

(** X1.  Every search of every adapter, whatever the subfunction and the
    options, makes exactly one network call and changes nothing else in the
    process; there is no retry, and an error of the transport is the error
    of the search. *)
Theorem search_one_round_trip `{PyBuiltins} (inst : provider)
    (query : string) (sf : option string) (kwargs : dict) (p : process) :
  exists req,
    snd (provider_search inst query sf kwargs p)
      = with_wire (wire p ++ [req]) p /\
    (forall e, transport p req = Raise e ->
       fst (provider_search inst query sf kwargs p) = Raise e) /\
    (forall p', transport p' = transport p ->
       fst (provider_search inst query sf kwargs p')
         = fst (provider_search inst query sf kwargs p)).
Proof.
  exists (request_of inst query sf kwargs).
  rewrite provider_search_run. split; [reflexivity|]. split.
  - intros e He. cbn [fst]. rewrite He. reflexivity.
  - intros p' Ht. rewrite provider_search_run. cbn [fst].
    rewrite Ht. reflexivity.
Qed.

Lemma search_one_round_trip_witness :
  exists req,
    snd (provider_search (H := Reference.builtins) (TavilyProvider (PStr "k"))
           "cats" None []
           (start repo_dir ∅ (fun _ => Raise (TransportError "503"))))
      = with_wire [req]
          (start repo_dir ∅ (fun _ => Raise (TransportError "503"))) /\
    fst (provider_search (H := Reference.builtins) (TavilyProvider (PStr "k"))
           "cats" None []
           (start repo_dir ∅ (fun _ => Raise (TransportError "503"))))
      = Raise (TransportError "503").
Proof.
  destruct (@search_one_round_trip Reference.builtins
              (TavilyProvider (PStr "k")) "cats" None []
              (start repo_dir ∅ (fun _ => Raise (TransportError "503"))))
    as (req & Hsnd & Herr & _).
  exists req. split; [exact Hsnd|]. apply Herr. reflexivity.
Defined.

(** ** The provenance tag *)

Lemma dict_set_keeps (k k' : string) (v : pyval) (d : dict) :
  is_Some (dict_get k' d) -> is_Some (dict_get k' (dict_set k v d)).
Proof.
  intros Hd. destruct (String.eqb_spec k k') as [->|Hne].
  - rewrite dict_get_set_eq. eauto.
  - rewrite dict_get_set_ne by exact Hne. exact Hd.
Qed.

Lemma dict_update_keeps (k : string) (e d : dict) :
  is_Some (dict_get k d) -> is_Some (dict_get k (dict_update d e)).
Proof.
  unfold dict_update. revert d.
  induction e as [|[k0 v0] e IH]; intros d Hd; [exact Hd|].
  cbn [fold_left fst snd]. apply IH, dict_set_keeps, Hd.
Qed.

Lemma search_params_engine (api_key : pyval) (query : string)
    (sf : option string) (kwargs : dict) :
  is_Some (dict_get "engine"
             (SerpSearchProvider.search_params api_key query sf kwargs)).
Proof.
  unfold SerpSearchProvider.search_params.
  assert (Hbase : is_Some (dict_get "engine"
            (dict_update [("q", PStr query); ("api_key", api_key);
                          ("engine", PStr "google")] kwargs))).
  { apply dict_update_keeps. simpl. eauto. }
  destruct (truthy (sf_val sf)); [|exact Hbase].
  rewrite dict_get_set_eq. eauto.
Qed.

Lemma organic_result_tag `{PyBuiltins} (params : dict) (engine h : pyval)
    (r : SearchResult) :
  dict_get "engine" params = Some engine ->
  SerpSearchProvider.organic_result params h = Ok r ->
  source r = PStr ("serpapi:" +:+ py_str engine).
Proof.
  intros He. unfold SerpSearchProvider.organic_result, py_item.
  rewrite He. unfold_bind. intros E.
  py_get_cases. inversion E. reflexivity.
Qed.

Lemma map_organic_tag `{PyBuiltins} (params : dict) (engine data : pyval)
    (rs : list SearchResult) :
  dict_get "engine" params = Some engine ->
  SerpSearchProvider.map_organic params data = Ok rs ->
  Forall (fun r => source r = PStr ("serpapi:" +:+ py_str engine)) rs.
Proof.
  intros He. unfold SerpSearchProvider.map_organic. unfold_bind. intros E.
  destruct (py_get data "organic_results" (PList [])) as [v|]; [|discriminate].
  destruct (py_iter v) as [items|]; [|discriminate].
  apply res_map_inv in E. revert E. apply Forall2_right.
  intros h r. apply organic_result_tag, He.
Qed.

(** X2.  On the organic path of the serp adapter the source of every result
    names the engine of the request that was sent, whichever way that
    engine was chosen (the default, the subfunction or the options). *)
Theorem source_names_engine_sent `{PyBuiltins} (api_key : pyval)
    (query : string) (sf : option string) (kwargs : dict) (p : process)
    (rs : list SearchResult) :
  sf <> Some "youtube" ->
  fst (SerpSearchProvider.search api_key query sf kwargs p) = Ok rs ->
  exists params engine,
    wire (snd (SerpSearchProvider.search api_key query sf kwargs p))
      = (wire p ++ [SerpGet params])%list /\
    dict_get "engine" params = Some engine /\
    Forall (fun r => source r = PStr ("serpapi:" +:+ py_str engine)) rs.
Proof.
  intros Hsf. rewrite (serp_search_run api_key query sf kwargs p Hsf).
  cbn [fst snd]. intros Hrs.
  destruct (search_params_engine api_key query sf kwargs) as [engine He].
  exists (SerpSearchProvider.search_params api_key query sf kwargs), engine.
  split; [reflexivity|]. split; [exact He|].
  unfold mbind, res_mbind, res_bind in Hrs.
  destruct (transport p _) as [data|]; [|discriminate].
  exact (map_organic_tag _ engine data rs He Hrs).
Qed.

Lemma source_names_engine_sent_witness :
  exists params engine,
    wire (snd (SerpSearchProvider.search (H := Reference.builtins)
                 (PStr "k") "cats" (Some "")
                 [("engine", PStr "bing")]
                 (start repo_dir ∅ (fun _ => Ok (PDict two_organic)))))
      = [SerpGet params] /\
    dict_get "engine" params = Some engine /\
    Forall (fun r => source r
                     = PStr ("serpapi:" +:+ py_str (H := Reference.builtins)
                                              engine))
      [{| title := PStr "a"; url := PStr "u1"; content := PStr "s1";
          source := PStr "serpapi:bing" |};
       {| title := PStr "b"; url := PStr "u2"; content := PStr "s2";
          source := PStr "serpapi:bing" |}].
Proof.
  apply (@source_names_engine_sent Reference.builtins (PStr "k") "cats"
           (Some "") [("engine", PStr "bing")]
           (start repo_dir ∅ (fun _ => Ok (PDict two_organic)))).
  - discriminate.
  - reflexivity.
Defined.

Lemma tavily_result_tag (h : pyval) (r : SearchResult) :
  TavilySearchProvider.tavily_result h = Ok r -> source r = PStr "tavily".
Proof.
  unfold TavilySearchProvider.tavily_result. unfold_bind. intros E.
  py_get_cases. inversion E. reflexivity.
Qed.

Lemma hit_result_tag (h : pyval) (r : SearchResult) :
  YouSearchProvider.hit_result h = Ok r -> source r = PStr "you.com".
Proof.
  unfold YouSearchProvider.hit_result. unfold_bind. intros E.
  destruct (py_get h "title" (PStr "")); [|discriminate].
  destruct (py_get h "url" (PStr "")); [|discriminate].
  destruct (YouSearchProvider.hit_content h); [|discriminate].
  inversion E. reflexivity.
Qed.

(** X3.  Whatever upstream answers, every result the tavily adapter returns is
    tagged ["tavily"] and every result of the you.com web path ["you.com"];
    no field of the answer can change the tag. *)
Theorem fixed_source_tags (data : pyval) (rs : list SearchResult) :
  (TavilySearchProvider.map_results data = Ok rs ->
   Forall (fun r => source r = PStr "tavily") rs) /\
  (YouSearchProvider.map_hits data = Ok rs ->
   Forall (fun r => source r = PStr "you.com") rs).
Proof.
  split.
  - unfold TavilySearchProvider.map_results. unfold_bind. intros E.
    destruct (py_get data "results" (PList [])) as [v|]; [|discriminate].
    destruct (py_iter v) as [items|]; [|discriminate].
    apply res_map_inv in E. revert E. apply Forall2_right.
    exact tavily_result_tag.
  - unfold YouSearchProvider.map_hits. unfold_bind. intros E.
    destruct (py_get data "hits" (PList [])) as [v|]; [|discriminate].
    destruct (py_iter v) as [items|]; [|discriminate].
    apply res_map_inv in E. revert E. apply Forall2_right.
    exact hit_result_tag.
Qed.

Lemma fixed_source_tags_witness :
  Forall (fun r => source r = PStr "you.com")
    [{| title := PStr "t"; url := PStr "u"; content := PStr "a b";
        source := PStr "you.com" |}].
Proof.
  apply (proj2 (fixed_source_tags (PDict snippet_response) _)).
  reflexivity.
Defined.

(** ** The factory *)

Lemma append_cancel_r (a b suf : string) : a +:+ suf = b +:+ suf -> a = b.
Proof.
  intros E. rewrite <- (strip_suffix_append suf a), E.
  apply strip_suffix_append.
Qed.

Lemma known_key (provider_key : string) :
  In provider_key ["serp"; "tavily"; "you"] ->
  exists a, provider_key = adapter_key a.
Proof.
  simpl. intros [<-|[<-|[<-|[]]]];
    [exists Serp|exists Tavily|exists You]; reflexivity.
Qed.

Lemma no_module (provider_key : string) :
  ~ In provider_key ["serp"; "tavily"; "you"] ->
  SearchProviderFactory.assoc
    (SearchProviderFactory.module_path_of provider_key)
    SearchProviderFactory.modules = None.
Proof.
  intros Hk. unfold SearchProviderFactory.modules.
  cbn [SearchProviderFactory.assoc].
  repeat match goal with
  | |- context [String.eqb ?l ?r] =>
      destruct (String.eqb_spec l r) as [E|_];
        [exfalso; unfold SearchProviderFactory.module_path_of in E;
         simpl in E; inversion E as [E'];
         apply Hk; simpl;
         first [ left; symmetry;
                 exact (append_cancel_r _ "serp" "_search_provider"
                          (eq_sym E'))
               | right; left; symmetry;
                 exact (append_cancel_r _ "tavily" "_search_provider"
                          (eq_sym E'))
               | right; right; left; symmetry;
                 exact (append_cancel_r _ "you" "_search_provider"
                          (eq_sym E')) ]
        |]
  end.
  reflexivity.
Qed.

Lemma create_provider_no_module (provider_key : string) (config : pyval)
    (p : process) :
  ~ In provider_key ["serp"; "tavily"; "you"] ->
  SearchProviderFactory.create_provider provider_key config p =
    (Raise (ImportError (SearchProviderFactory.module_path_of provider_key)),
     p).
Proof.
  intros Hk. unfold SearchProviderFactory.create_provider.
  rewrite (no_module provider_key Hk). reflexivity.
Qed.

(** X4.  A provider key for which the package ships no module makes
    [create_provider] raise the ImportError for the module path it derived;
    no constructor is called and the process is left as it was. *)
Theorem create_provider_unknown_key (provider_key : string) (config : pyval)
    (p : process) :
  ~ In provider_key ["serp"; "tavily"; "you"] ->
  SearchProviderFactory.create_provider provider_key config p =
    (Raise (ImportError ("aisuite.search_providers." +:+ provider_key +:+
                         "_search_provider")), p).
Proof. apply create_provider_no_module. Qed.

Lemma create_provider_unknown_key_witness :
  ~ In "you.com" ["serp"; "tavily"; "you"] /\
  SearchProviderFactory.create_provider "you.com" (PDict []) quiet_process =
    (Raise (ImportError "aisuite.search_providers.you.com_search_provider"),
     quiet_process).
Proof.
  assert (Hk : ~ In "you.com" ["serp"; "tavily"; "you"]).
  { simpl. intros [E|[E|[E|[]]]]; discriminate E. }
  split; [exact Hk|].
  exact (create_provider_unknown_key "you.com" (PDict []) quiet_process Hk).
Defined.

(** The factory on a key it knows: the constructor call is logged, the
    keyword arguments are bound, the constructor resolves its key. *)
Lemma create_provider_known (a : adapter) (config : pyval) (p : process) :
  SearchProviderFactory.create_provider (adapter_key a) config p =
    (SearchProviderFactory.bind_api_key config
       ≫= (fun k => fst (adapter_init a k p)),
     with_built
       (built p ++ [(SearchProviderFactory.class_name_of (adapter_key a),
                     config)]) p).
Proof.
  assert (SearchProviderFactory.create_provider (adapter_key a) config =
      (modify (fun p => with_built
         (built p ++ [(SearchProviderFactory.class_name_of (adapter_key a),
                       config)]) p)
       ≫= fun _ => lift (SearchProviderFactory.bind_api_key config)
       ≫= adapter_init a)) as -> by (destruct a; reflexivity).
  unfold mbind at 1 2. unfold M_bind, modify, lift.
  destruct (SearchProviderFactory.bind_api_key config) as [k|e];
    [|reflexivity].
  unfold mbind, res_mbind, res_bind.
  rewrite !adapter_init_run, !resolve_run. reflexivity.
Qed.

(** X5.  The constructors take the one keyword [api_key]: a configuration that
    carries any other option (or is no dict) makes [create_provider] raise
    TypeError, before the key is resolved and whatever the environment
    holds. *)
Theorem create_provider_rejects_options (a : adapter) (d : dict)
    (k : string) (v : pyval) (p : process) :
  (k, v) ∈ d -> k <> "api_key" ->
  fst (SearchProviderFactory.create_provider (adapter_key a) (PDict d) p)
    = Raise TypeError.
Proof.
  intros Hin Hk. rewrite create_provider_known. cbn [fst].
  unfold SearchProviderFactory.bind_api_key.
  assert (Hd : forallb (fun kv : string * pyval => fst kv =? "api_key") d
               = false).
  { apply not_true_is_false. intros Hall.
    rewrite forallb_forall in Hall.
    specialize (Hall (k, v) (proj1 (list_elem_of_In _ _) Hin)).
    apply String.eqb_eq in Hall. exact (Hk Hall). }
  rewrite Hd. reflexivity.
Qed.

Lemma create_provider_rejects_options_witness :
  fst (SearchProviderFactory.create_provider "serp"
         (PDict [("api_key", PStr "k"); ("cx", PStr "c")]) quiet_process)
    = Raise TypeError.
Proof.
  apply (create_provider_rejects_options Serp
           [("api_key", PStr "k"); ("cx", PStr "c")] "cx" (PStr "c")).
  - set_solver.
  - discriminate.
Defined.

Lemma adapter_init_ok (a : adapter) (api_key : pyval) (p : process)
    (inst : provider) :
  fst (adapter_init a api_key p) = Ok inst ->
  exists k, inst = adapter_object a k /\ truthy k = true /\
    (k = api_key \/
     exists v, environ p !! adapter_var a = Some v /\ k = PStr v).
Proof.
  rewrite adapter_init_run, resolve_run. cbn [fst]. cbv zeta.
  destruct (truthy api_key) eqn:Ht.
  - rewrite Ht. intros E. inversion E. exists api_key. auto.
  - destruct (environ p !! adapter_var a) as [v|] eqn:Hv.
    + destruct (truthy (PStr v)) eqn:Htv; intros E; inversion E.
      exists (PStr v). split; [reflexivity|]. split; [exact Htv|].
      right. exists v. auto.
    + simpl. discriminate.
Qed.

(** X6.  Every adapter object [create_provider] returns is of the class named
    by the key and carries a credential that is not empty: the explicit
    [api_key] option, or else the value of the adapter's environment
    variable. *)
Theorem created_adapter_has_credential (provider_key : string)
    (config : pyval) (p : process) (inst : provider) :
  fst (SearchProviderFactory.create_provider provider_key config p)
    = Ok inst ->
  exists a k,
    provider_key = adapter_key a /\ inst = adapter_object a k /\
    api_key_of inst = k /\ truthy k = true /\
    (SearchProviderFactory.bind_api_key config = Ok k \/
     exists v, environ p !! adapter_var a = Some v /\ k = PStr v).
Proof.
  intros Hok.
  destruct (in_dec string_dec provider_key ["serp"; "tavily"; "you"])
    as [Hk|Hk].
  - destruct (known_key provider_key Hk) as [a ->].
    rewrite create_provider_known in Hok. cbn [fst] in Hok.
    unfold mbind, res_mbind, res_bind in Hok.
    destruct (SearchProviderFactory.bind_api_key config) as [k0|] eqn:Eb;
      [|discriminate].
    destruct (adapter_init_ok a k0 p inst Hok) as (k & -> & Ht & Hsrc).
    exists a, k. split; [reflexivity|]. split; [reflexivity|].
    split; [destruct a; reflexivity|]. split; [exact Ht|].
    destruct Hsrc as [->|Hv]; auto.
  - rewrite create_provider_no_module in Hok by exact Hk. discriminate.
Qed.

Lemma created_adapter_has_credential_witness :
  exists a k,
    "you" = adapter_key a /\
    YouProvider (PStr "secret") [("X-API-Key", PStr "secret")]
      = adapter_object a k /\
    api_key_of (YouProvider (PStr "secret") [("X-API-Key", PStr "secret")])
      = k /\
    truthy k = true /\
    (SearchProviderFactory.bind_api_key (PDict []) = Ok k \/
     exists v,
       environ (start repo_dir {[ "YOU_COM_API_KEY" := "secret" ]}
                  (fun _ => Ok (PDict []))) !! adapter_var a = Some v /\
       k = PStr v).
Proof.
  apply (created_adapter_has_credential "you" (PDict [])
           (start repo_dir {[ "YOU_COM_API_KEY" := "secret" ]}
              (fun _ => Ok (PDict [])))).
  reflexivity.
Defined.

(** ** The registry *)

(** X7.  The first call scans the directory; every later call in the process
    returns that same set without scanning, whatever the directory holds by
    then. *)
Theorem supported_is_a_snapshot (p : process) (dir' : list string) :
  supported_cache p = None ->
  fst (SearchProviderFactory.get_supported_providers p)
    = Ok (SearchProviderFactory.scan (providers_dir p)) /\
  SearchProviderFactory.get_supported_providers
    (with_dir dir' (snd (SearchProviderFactory.get_supported_providers p)))
  = (Ok (SearchProviderFactory.scan (providers_dir p)),
     with_dir dir' (snd (SearchProviderFactory.get_supported_providers p))).
Proof.
  intros Hc.
  assert (Hrun : SearchProviderFactory.get_supported_providers p =
            (Ok (SearchProviderFactory.scan (providers_dir p)),
             with_cache (SearchProviderFactory.scan (providers_dir p)) p)).
  { unfold SearchProviderFactory.get_supported_providers.
    rewrite Hc. reflexivity. }
  rewrite Hrun. split; reflexivity.
Qed.

Lemma supported_is_a_snapshot_witness :
  fst (SearchProviderFactory.get_supported_providers
         (with_dir ("bing_search_provider.py" :: repo_dir)
            (snd (SearchProviderFactory.get_supported_providers
                    quiet_process))))
  = Ok (SearchProviderFactory.scan repo_dir).
Proof.
  destruct (supported_is_a_snapshot quiet_process
              ("bing_search_provider.py" :: repo_dir) eq_refl) as [_ H].
  rewrite H. reflexivity.
Defined.

Lemma ends_with_append (suf k : string) : ends_with suf (k +:+ suf) = true.
Proof.
  induction k as [|c k IH].
  - simpl. destruct suf; simpl; [reflexivity|].
    rewrite Ascii.eqb_refl, String.eqb_refl. reflexivity.
  - rewrite append_cons. cbn [ends_with]. rewrite IH. apply orb_true_r.
Qed.

Lemma ends_with_split (suf s : string) :
  ends_with suf s = true -> s = strip_suffix suf s +:+ suf.
Proof.
  induction s as [|c s IH]; cbn [ends_with strip_suffix].
  - destruct (String.eqb_spec "" suf) as [<-|Hne]; [reflexivity|].
    simpl. discriminate.
  - destruct (String.eqb_spec (String c s) suf) as [<-|Hne].
    + reflexivity.
    + rewrite orb_false_l. intros Hs.
      rewrite append_cons. f_equal. apply IH, Hs.
Qed.

Lemma append_assoc (a b c : string) : (a +:+ b) +:+ c = a +:+ (b +:+ c).
Proof.
  induction a as [|x a IH]; [reflexivity|].
  rewrite !append_cons. f_equal. exact IH.
Qed.

Lemma rfind_dot_py (s : string) :
  rfind "."%char (s +:+ ".py") = Some (String.length s).
Proof.
  induction s as [|c s IH]; [reflexivity|].
  rewrite append_cons. cbn [rfind String.length]. rewrite IH. reflexivity.
Qed.

Lemma substring_prefix (s t : string) :
  substring 0 (String.length s) (s +:+ t) = s.
Proof.
  induction s as [|c s IH]; simpl.
  - destruct t; reflexivity.
  - rewrite IH. reflexivity.
Qed.

Lemma stem_py (s : string) :
  s <> "" -> SearchProviderFactory.stem (s +:+ ".py") = s.
Proof.
  intros Hs. unfold SearchProviderFactory.stem. rewrite rfind_dot_py.
  assert (H1 : (0 <? String.length s)%nat = true).
  { destruct s; [contradiction|]. reflexivity. }
  assert (H2 : (String.length s <? String.length (s +:+ ".py") - 1)%nat
               = true).
  { rewrite length_append. simpl. apply Nat.ltb_lt. lia. }
  rewrite H1, H2. apply substring_prefix.
Qed.

Lemma stem_of_provider_file (k : string) :
  SearchProviderFactory.stem (k +:+ "_search_provider.py")
  = k +:+ "_search_provider".
Proof.
  change "_search_provider.py" with ("_search_provider" +:+ ".py").
  rewrite <- append_assoc. apply stem_py.
  destruct k; discriminate.
Qed.

(** X8.  The naming convention round trip.  The file of a key, named
    [<key>_search_provider.py], is matched by the scan, and the scan reads
    the key back from it provided the key itself does not bring a second
    occurrence of the text [_search_provider]; the module the factory
    imports for that key is the stem of that very file. *)
Theorem file_name_round_trip (provider_key : string) :
  ends_once "_search_provider" provider_key = true ->
  SearchProviderFactory.glob_match (provider_key +:+ "_search_provider.py")
    = true /\
  SearchProviderFactory.provider_key_of
    (provider_key +:+ "_search_provider.py") = provider_key /\
  SearchProviderFactory.module_path_of provider_key =
    "aisuite.search_providers." +:+
    SearchProviderFactory.stem (provider_key +:+ "_search_provider.py").
Proof.
  intros Hk. split; [|split].
  - apply ends_with_append.
  - unfold SearchProviderFactory.provider_key_of.
    rewrite stem_of_provider_file.
    apply str_remove_append; [discriminate|exact Hk].
  - rewrite stem_of_provider_file. reflexivity.
Qed.

Lemma file_name_round_trip_witness :
  ends_once "_search_provider" "tavily" = true /\
  SearchProviderFactory.provider_key_of "tavily_search_provider.py"
    = "tavily".
Proof.
  split; [reflexivity|].
  exact (proj1 (proj2 (file_name_round_trip "tavily" eq_refl))).
Defined.

(** X9.  On every directory whose matching files hold the text
    [_search_provider] once in their stem, the registry returns exactly the
    keys obtained by taking the suffix off each stem. *)
Theorem scan_strips_suffix (dir : list string) :
  (forall name, In name dir ->
     SearchProviderFactory.glob_match name = true ->
     single_suffix name = true) ->
  SearchProviderFactory.scan dir = scan_by_suffix dir.
Proof.
  intros Hdir. unfold SearchProviderFactory.scan, scan_by_suffix.
  f_equal. apply map_ext_in. intros name Hin.
  apply filter_In in Hin as [Hin Hglob].
  specialize (Hdir name Hin Hglob). unfold single_suffix in Hdir.
  unfold SearchProviderFactory.glob_match in Hglob.
  apply ends_with_split in Hglob. rewrite Hglob.
  set (k := strip_suffix "_search_provider.py" name) in *.
  unfold SearchProviderFactory.provider_key_of.
  rewrite stem_of_provider_file, strip_suffix_append.
  apply str_remove_append; [discriminate|exact Hdir].
Qed.

Lemma scan_strips_suffix_witness :
  SearchProviderFactory.scan ("__init__.py" :: repo_dir)
  = scan_by_suffix ("__init__.py" :: repo_dir).
Proof.
  apply scan_strips_suffix. intros name Hin _.
  simpl in Hin. destruct Hin as [<-|[<-|[<-|[<-|[]]]]]; reflexivity.
Defined.

(** ** Eager construction *)

Lemma supported_now_of_cache (p : process) (s : gset string) :
  supported_cache p = Some s -> supported_now p = s.
Proof. unfold supported_now. intros ->. reflexivity. Qed.

Lemma initialize_each_ok `{PyBuiltins} (self : loc) (items : dict) :
  forall (p : process) (c : client),
    clients p !! self = Some c ->
    fst (SearchClient.initialize_each self items p) = Ok tt ->
    exists c',
      clients (snd (SearchClient.initialize_each self items p)) !! self
        = Some c' /\
      provider_configs c' = provider_configs c /\
      (forall k, In k (map fst items) ->
         k ∈ supported_now p /\ is_Some (providers c' !! k)) /\
      (forall k, is_Some (providers c !! k) -> is_Some (providers c' !! k)).
Proof.
  induction items as [|[key config] items IH]; intros p c Hc Hok.
  - exists c. cbn [SearchClient.initialize_each].
    split; [exact Hc|]. split; [reflexivity|].
    split; [intros k0 []|auto].
  - cbn [SearchClient.initialize_each] in *.
    unfold mbind at 1 in Hok. unfold M_bind at 1 in Hok.
    unfold mbind at 1. unfold M_bind at 1.
    destruct (decide (key ∈ supported_now p)) as [Hin|Hout];
      [|rewrite (validate_fail p key Hout) in Hok; discriminate Hok].
    rewrite (validate_ok p key Hin) in *.
    set (p1 := with_cache (supported_now p) p) in *.
    unfold mbind at 1 in Hok. unfold M_bind at 1 in Hok.
    unfold mbind at 1. unfold M_bind at 1.
    pose proof (preserves_create_provider clients key config
                  (fun _ _ => eq_refl) p1) as Hcl.
    pose proof (preserves_create_provider supported_cache key config
                  (fun _ _ => eq_refl) p1) as Hca.
    destruct (SearchProviderFactory.create_provider key config p1)
      as [[inst|e] p2]; [|discriminate Hok].
    cbn [snd] in Hcl, Hca.
    unfold mbind at 1 in Hok. unfold M_bind at 1 in Hok.
    unfold mbind at 1. unfold M_bind at 1.
    unfold SearchClient.set_provider at 1 in Hok.
    unfold SearchClient.set_provider at 1. unfold modify in *.
    set (upd := fun c0 : client =>
           {| providers := <[key := inst]> (providers c0);
              provider_configs := provider_configs c0 |}) in *.
    set (p3 := with_clients (alter upd self (clients p2)) p2) in *.
    assert (Hc3 : clients p3 !! self = Some (upd c)).
    { unfold p3. cbn [clients with_clients].
      rewrite list_lookup_alter_eq, Hcl. unfold p1. cbn [clients with_cache].
      rewrite Hc. reflexivity. }
    assert (Hs3 : supported_now p3 = supported_now p).
    { apply supported_now_of_cache. unfold p3.
      cbn [supported_cache with_clients]. rewrite Hca. reflexivity. }
    destruct (IH p3 (upd c) Hc3 Hok) as (c' & Hc' & Hcfg & Hkeys & Hmono).
    exists c'. split; [exact Hc'|]. split; [exact Hcfg|]. split.
    + intros k0 Hk0. cbn [map fst] in Hk0. destruct Hk0 as [Hk0|Hk0].
      * subst k0. split; [exact Hin|]. apply Hmono. unfold upd.
        cbn [providers]. rewrite lookup_insert_eq. eauto.
      * rewrite <- Hs3. apply Hkeys, Hk0.
    + intros k0 Hk0. apply Hmono. unfold upd. cbn [providers].
      destruct (decide (key = k0)) as [Heq|Hne].
      * subst k0. rewrite lookup_insert_eq. eauto.
      * rewrite lookup_insert_ne by exact Hne. exact Hk0.
Qed.

Lemma init_run `{PyBuiltins} (arg : option loc) (p : process) :
  SearchClient.init arg p =
    match SearchClient.initialize_each (length (clients p))
            (deref p (default default_configs arg))
            (with_clients
               (clients p ++
                [{| providers := ∅;
                    provider_configs := default default_configs arg |}]) p)
    with
    | (Ok _, p2) => (Ok (length (clients p)), p2)
    | (Raise e, p2) => (Raise e, p2)
    end.
Proof.
  unfold SearchClient.init, SearchClient._initialize_providers,
    SearchClient.this, gets, modify, mbind, M_bind, mret, M_ret.
  cbn [clients with_clients].
  rewrite lookup_app_r by lia. rewrite Nat.sub_diag. cbn [lookup list_lookup].
  change (deref (with_clients ?c p) ?l) with (deref p l).
  cbn [provider_configs].
  destruct (SearchClient.initialize_each _ _ _) as [[u|e] p2]; reflexivity.
Qed.

(** X10.  A client that was constructed holds an adapter for every key of the
    configuration it was given, and every such key is a supported one:
    construction is eager, and a key that is not supported or an adapter
    that cannot be built makes the constructor raise. *)
Theorem init_builds_every_configured `{PyBuiltins} (arg : option loc)
    (p : process) (self : loc) :
  fst (SearchClient.init arg p) = Ok self ->
  exists c,
    clients (snd (SearchClient.init arg p)) !! self = Some c /\
    provider_configs c = default default_configs arg /\
    forall k,
      In k (map fst (deref p (default default_configs arg))) ->
      k ∈ supported_now p /\ is_Some (providers c !! k).
Proof.
  intros Hok. pose proof (init_self arg p self Hok) as ->.
  revert Hok. rewrite init_run.
  set (c0 := {| providers := ∅;
                provider_configs := default default_configs arg |}).
  set (p1 := with_clients (clients p ++ [c0]) p).
  assert (Hc0 : clients p1 !! length (clients p) = Some c0).
  { unfold p1. cbn [clients with_clients].
    rewrite lookup_app_r by lia. rewrite Nat.sub_diag. reflexivity. }
  destruct (SearchClient.initialize_each (length (clients p))
              (deref p (default default_configs arg)) p1)
    as [[[]|e] p2] eqn:Erun; [|discriminate].
  intros _.
  destruct (initialize_each_ok (length (clients p))
              (deref p (default default_configs arg)) p1 c0 Hc0)
    as (c' & Hc' & Hcfg & Hkeys & _).
  { rewrite Erun. reflexivity. }
  rewrite Erun in Hc'. cbn [snd] in *.
  exists c'. split; [exact Hc'|]. split; [exact Hcfg|].
  intros k Hk. exact (Hkeys k Hk).
Qed.

Lemma init_builds_every_configured_witness :
  exists c,
    clients (snd (SearchClient.init (H := Reference.builtins) (Some 1)
                    (configured ∅ (fun _ => Ok (PDict []))))) !! 0 = Some c /\
    provider_configs c = 1 /\
    forall k,
      In k (map fst (deref (configured ∅ (fun _ => Ok (PDict []))) 1)) ->
      k ∈ supported_now (configured ∅ (fun _ => Ok (PDict []))) /\
      is_Some (providers c !! k).
Proof.
  apply (@init_builds_every_configured Reference.builtins (Some 1)
           (configured ∅ (fun _ => Ok (PDict []))) 0).
  rewrite init_configured. reflexivity.
Defined.

Lemma initialize_providers_run `{PyBuiltins} (self : loc) (c : client)
    (p : process) :
  clients p !! self = Some c ->
  SearchClient._initialize_providers self p =
    SearchClient.initialize_each self (deref p (provider_configs c)) p.
Proof.
  intros Hc. unfold SearchClient._initialize_providers, SearchClient.this,
    gets, mbind, M_bind.
  rewrite Hc. reflexivity.
Qed.

(** X11.  [configure] that returns has rebuilt the client: it then holds an
    adapter for every key of the merged configuration, the old keys as well
    as the new ones, and all of them are supported keys. *)
Theorem configure_builds_every_configured `{PyBuiltins} (self : loc)
    (c : client) (new : dict) (p : process) :
  clients p !! self = Some c ->
  fst (SearchClient.configure self (Some new) p) = Ok tt ->
  exists c',
    clients (snd (SearchClient.configure self (Some new) p)) !! self
      = Some c' /\
    provider_configs c' = provider_configs c /\
    forall k,
      In k (map fst (dict_update (deref p (provider_configs c)) new)) ->
      k ∈ supported_now p /\ is_Some (providers c' !! k).
Proof.
  intros Hc. rewrite (configure_run self c new p Hc).
  set (pd := with_dicts _ p).
  assert (Hcd : clients pd !! self = Some c) by exact Hc.
  rewrite (initialize_providers_run self c pd Hcd).
  assert (Hd : deref pd (provider_configs c)
               = dict_update (deref p (provider_configs c)) new).
  { unfold deref at 1, pd. cbn [dicts with_dicts].
    rewrite lookup_insert_eq. reflexivity. }
  rewrite Hd. intros Hok.
  destruct (initialize_each_ok self _ pd c Hcd Hok)
    as (c' & Hc' & Hcfg & Hkeys & _).
  exists c'. split; [exact Hc'|]. split; [exact Hcfg|]. exact Hkeys.
Qed.

Lemma configure_builds_every_configured_witness :
  exists c',
    clients (snd (SearchClient.configure (H := Reference.builtins) 0
                    (Some serp_configs) two_clients)) !! 0 = Some c' /\
    provider_configs c' = provider_configs bare_client /\
    forall k,
      In k (map fst (dict_update
                       (deref two_clients (provider_configs bare_client))
                       serp_configs)) ->
      k ∈ supported_now two_clients /\ is_Some (providers c' !! k).
Proof.
  apply (@configure_builds_every_configured Reference.builtins 0 bare_client
           serp_configs two_clients).
  - vm_compute. reflexivity.
  - vm_compute. reflexivity.
Defined.

(** X12.  [configure] extends and never replaces: an entry whose key the new
    configuration does not mention reads as before, every new entry reads
    back, and no dict other than the client's own one is written. *)
Theorem configure_extends `{PyBuiltins} (self : loc) (c : client)
    (new : dict) (p : process) :
  clients p !! self = Some c ->
  let p' := snd (SearchClient.configure self (Some new) p) in
  (forall k, dict_get k new = None ->
     dict_get k (deref p' (provider_configs c))
       = dict_get k (deref p (provider_configs c))) /\
  (forall k v, NoDup (map fst new) -> (k, v) ∈ new ->
     dict_get k (deref p' (provider_configs c)) = Some v) /\
  (forall l, l <> provider_configs c -> deref p' l = deref p l).
Proof.
  intros Hc p'. destruct (configure_dicts self c new p Hc) as [Hd _].
  fold p' in Hd.
  assert (Hown : deref p' (provider_configs c)
                 = dict_update (deref p (provider_configs c)) new).
  { unfold deref at 1. rewrite Hd, lookup_insert_eq. reflexivity. }
  split; [|split].
  - intros k Hk. rewrite Hown. apply dict_get_update_none, Hk.
  - intros k v Hnd Hin. rewrite Hown. apply dict_get_update_in; assumption.
  - intros l Hl. unfold deref. rewrite Hd.
    rewrite lookup_insert_ne by congruence. reflexivity.
Qed.

Lemma configure_extends_witness :
  dict_get "tavily" serp_configs = None /\
  dict_get "tavily"
    (deref (snd (SearchClient.configure (H := Reference.builtins) 0
                   (Some serp_configs) tavily_configured))
           (provider_configs bare_client))
  = Some (PDict [("api_key", PStr "t")]).
Proof.
  split; [reflexivity|].
  assert (Hc : exists c, clients tavily_configured !! 0 = Some c /\
                         provider_configs c = provider_configs bare_client).
  { eexists. split; [vm_compute; reflexivity|reflexivity]. }
  destruct Hc as (c & Hc & Ec). rewrite <- Ec.
  destruct (@configure_extends Reference.builtins 0 c serp_configs
              tavily_configured Hc) as (Hkeep & _ & _).
  rewrite (Hkeep "tavily" eq_refl). rewrite Ec. vm_compute. reflexivity.
Defined.

(** ** The paths of [SearchClient.search] *)

Lemma search_live_run `{PyBuiltins} (p : process) (self : loc) (c : client)
    (spec key sep sf : string) (inst : provider) (query : string)
    (kwargs : dict) :
  partition_colon spec = (key, sep, sf) ->
  key ∈ supported_now p ->
  clients p !! self = Some c ->
  providers c !! key = Some inst ->
  SearchClient.search self spec query kwargs p =
    hand_over inst query sf kwargs (with_cache (supported_now p) p).
Proof.
  intros Hpart Hin Hc Hinst. unfold SearchClient.search.
  rewrite Hpart. unfold mbind at 1. unfold M_bind at 1.
  rewrite (validate_ok p key Hin).
  unfold SearchClient.this. unfold_bind.
  cbn [clients with_cache]. rewrite Hc, Hinst.
  cbn [clients with_cache]. rewrite Hc, Hinst.
  unfold hand_over, raise.
  destruct (dict_get "specific_function" kwargs); reflexivity.
Qed.

Lemma search_no_client `{PyBuiltins} (p : process) (self : loc)
    (spec key sep sf query : string) (kwargs : dict) :
  partition_colon spec = (key, sep, sf) ->
  key ∈ supported_now p ->
  clients p !! self = None ->
  SearchClient.search self spec query kwargs p =
    (Raise AttributeError, with_cache (supported_now p) p).
Proof.
  intros Hpart Hin Hc. unfold SearchClient.search.
  rewrite Hpart. unfold mbind at 1. unfold M_bind at 1.
  rewrite (validate_ok p key Hin).
  unfold SearchClient.this. unfold_bind.
  cbn [clients with_cache]. rewrite Hc. reflexivity.
Qed.

Lemma search_build_run `{PyBuiltins} (p : process) (self : loc) (c : client)
    (spec key sep sf query : string) (kwargs : dict) :
  partition_colon spec = (key, sep, sf) ->
  key ∈ supported_now p ->
  clients p !! self = Some c ->
  providers c !! key = None ->
  SearchClient.search self spec query kwargs p =
    match SearchProviderFactory.create_provider key
            (default (PDict [])
               (dict_get key (deref p (provider_configs c))))
            (with_cache (supported_now p) p)
    with
    | (Raise e, p2) => (Raise e, p2)
    | (Ok inst, p2) =>
        hand_over inst query sf kwargs
          (with_clients (alter (store_adapter key inst) self (clients p2)) p2)
    end.
Proof.
  intros Hpart Hin Hc Hnone. unfold SearchClient.search.
  rewrite Hpart. unfold mbind at 1. unfold M_bind at 1.
  rewrite (validate_ok p key Hin).
  set (p1 := with_cache (supported_now p) p).
  pose proof (preserves_create_provider clients key
                (default (PDict [])
                   (dict_get key (deref p (provider_configs c))))
                (fun _ _ => eq_refl) p1) as Hcl.
  unfold SearchClient.this, SearchClient.set_provider, gets, modify,
    mbind, M_bind, mret, M_ret.
  change (clients p1) with (clients p). rewrite Hc, Hnone.
  change (deref p1 (provider_configs c)) with (deref p (provider_configs c)).
  destruct (SearchProviderFactory.create_provider key _ p1)
    as [[inst|e] p2]; [|reflexivity].
  cbn [snd] in Hcl. cbn [clients with_clients].
  rewrite list_lookup_alter_eq, Hcl. change (clients p1) with (clients p).
  rewrite Hc. cbn [fmap option_fmap option_map providers].
  rewrite lookup_insert_eq.
  unfold hand_over, raise, store_adapter.
  destruct (dict_get "specific_function" kwargs); reflexivity.
Qed.

Section SearchFrames.
Context `{PyBuiltins} {X : Type} (f : process -> X).
Hypothesis f_cache : forall s p, f (with_cache s p) = f p.
Hypothesis f_built : forall b p, f (with_built b p) = f p.
Hypothesis f_wire : forall w p, f (with_wire w p) = f p.

Lemma preserves_search (self : loc) (spec query : string) (kwargs : dict) :
  (forall key inst, preserves f (SearchClient.set_provider self key inst)) ->
  preserves f (SearchClient.search self spec query kwargs).
Proof.
  intros f_set. unfold SearchClient.search.
  destruct (partition_colon spec) as [[key sep] sf].
  apply preserves_bind; [apply preserves_validate, f_cache|]. intros _.
  apply preserves_bind; [apply preserves_this|]. intros c.
  apply preserves_bind.
  - destruct (providers c !! key); [apply preserves_ret|].
    apply preserves_bind; [apply preserves_gets|]. intros cfgs.
    apply preserves_bind; [apply preserves_create_provider, f_built|].
    intros inst. apply f_set.
  - intros _. apply preserves_bind; [apply preserves_this|]. intros c'.
    destruct (providers c' !! key); [|apply preserves_raise].
    destruct (dict_get "specific_function" kwargs); [apply preserves_raise|].
    apply preserves_provider_search, f_wire.
Qed.
End SearchFrames.

Lemma preserves_set_provider_other (self l : loc) (key : string)
    (inst : provider) :
  l <> self ->
  preserves (fun p => clients p !! l)
            (SearchClient.set_provider self key inst).
Proof.
  intros Hl p. unfold SearchClient.set_provider, modify.
  cbn [snd clients with_clients].
  apply list_lookup_alter_ne. congruence.
Qed.

(** X13.  [search] only reads the configuration: it leaves every configuration
    dict and every client's reference to its dict as it found them, and the
    adapters of every other client are untouched. *)
Theorem search_reads_configuration `{PyBuiltins} (self : loc)
    (spec query : string) (kwargs : dict) (p : process) :
  let p' := snd (SearchClient.search self spec query kwargs p) in
  dicts p' = dicts p /\
  map provider_configs (clients p') = map provider_configs (clients p) /\
  environ p' = environ p /\
  (forall l, l <> self -> clients p' !! l = clients p !! l).
Proof.
  cbv zeta. repeat apply conj.
  - apply (preserves_search dicts); try reflexivity.
    intros. apply preserves_set_provider_dicts.
  - apply (preserves_search refs); try reflexivity.
    intros. apply preserves_set_provider_refs.
  - apply (preserves_search environ); try reflexivity.
    intros key inst p0. reflexivity.
  - intros l Hl.
    apply (preserves_search (fun p => clients p !! l)); try reflexivity.
    intros. apply preserves_set_provider_other, Hl.
Qed.

Lemma search_reads_configuration_witness :
  1 <> 0 /\
  clients two_clients !! 1 = Some bare_client /\
  clients (snd (SearchClient.search (H := Reference.builtins) 0 "serp:bing"
                  "cats" [] two_clients)) !! 1
  = clients two_clients !! 1.
Proof.
  split; [discriminate|]. split; [vm_compute; reflexivity|].
  destruct (@search_reads_configuration Reference.builtins 0 "serp:bing"
              "cats" [] two_clients) as (_ & _ & _ & Hother).
  apply Hother. discriminate.
Defined.

(** ** A keyword option named [specific_function] *)

Lemma fails_bind {A B} (m : M A) (k : A -> M B) :
  (forall a, fails (k a)) -> fails (m ≫= k).
Proof.
  intros Hk p. unfold mbind, M_bind.
  destruct (m p) as [[a|e] p1]; [apply Hk|eauto].
Qed.

(** X14.  A caller's own option [specific_function] collides with the keyword
    the client passes: such a search never returns results and never
    reaches the network, whatever the provider string. *)
Theorem search_rejects_specific_function_option `{PyBuiltins} (self : loc)
    (spec query : string) (kwargs : dict) (v : pyval) (p : process) :
  dict_get "specific_function" kwargs = Some v ->
  (exists e, fst (SearchClient.search self spec query kwargs p) = Raise e) /\
  wire (snd (SearchClient.search self spec query kwargs p)) = wire p.
Proof.
  intros Hkw. split.
  - revert p. change (fails (SearchClient.search self spec query kwargs)).
    unfold SearchClient.search.
    destruct (partition_colon spec) as [[key sep] sf].
    do 4 (apply fails_bind; intros ?).
    destruct (providers _ !! key) as [inst|];
      [|intros p0; eexists; reflexivity].
    rewrite Hkw. intros p0. eexists. reflexivity.
  - revert p. change (preserves wire
                        (SearchClient.search self spec query kwargs)).
    unfold SearchClient.search.
    destruct (partition_colon spec) as [[key sep] sf].
    apply preserves_bind;
      [apply preserves_validate; reflexivity|]. intros _.
    apply preserves_bind; [apply preserves_this|]. intros c.
    apply preserves_bind.
    + destruct (providers c !! key); [apply preserves_ret|].
      apply preserves_bind; [apply preserves_gets|]. intros cfgs.
      apply preserves_bind;
        [apply preserves_create_provider; reflexivity|].
      intros inst p0. reflexivity.
    + intros _. apply preserves_bind; [apply preserves_this|]. intros c'.
      destruct (providers c' !! key); [|apply preserves_raise].
      rewrite Hkw. apply preserves_raise.
Qed.

Lemma search_rejects_specific_function_option_witness :
  SearchClient.search (H := Reference.builtins) 0 "serp" "cats"
    [("specific_function", PStr "bing")]
    (snd (SearchClient.init (H := Reference.builtins) (Some 1)
            (configured ∅ (fun _ => Ok (PDict two_organic)))))
  = (Raise TypeError,
     snd (SearchClient.init (H := Reference.builtins) (Some 1)
            (configured ∅ (fun _ => Ok (PDict two_organic))))) /\
  exists e,
    fst (SearchClient.search (H := Reference.builtins) 0 "serp" "cats"
           [("specific_function", PStr "bing")]
           (snd (SearchClient.init (H := Reference.builtins) (Some 1)
                   (configured ∅ (fun _ => Ok (PDict two_organic))))))
    = Raise e.
Proof.
  split; [vm_compute; reflexivity|].
  exact (proj1 (@search_rejects_specific_function_option Reference.builtins
                  0 "serp" "cats" [("specific_function", PStr "bing")]
                  (PStr "bing") _ eq_refl)).
Defined.

(** ** One adapter per key, and the same answer twice *)

Lemma preserves_hand_over `{PyBuiltins} {X} (f : process -> X)
    (inst : provider) (query sf : string) (kwargs : dict) :
  (forall w p, f (with_wire w p) = f p) ->
  preserves f (hand_over inst query sf kwargs).
Proof.
  intros Hf. unfold hand_over.
  destruct (dict_get "specific_function" kwargs); [apply preserves_raise|].
  apply preserves_provider_search, Hf.
Qed.

Lemma hand_over_fst `{PyBuiltins} (inst : provider) (query sf : string)
    (kwargs : dict) (p p' : process) :
  transport p' = transport p ->
  fst (hand_over inst query sf kwargs p')
    = fst (hand_over inst query sf kwargs p).
Proof.
  intros Ht. unfold hand_over, raise.
  destruct (dict_get "specific_function" kwargs); [reflexivity|].
  rewrite !provider_search_run. cbn [fst]. rewrite Ht. reflexivity.
Qed.

Lemma adapter_init_fst (a : adapter) (k : pyval) (p p' : process) :
  environ p' = environ p ->
  fst (adapter_init a k p') = fst (adapter_init a k p).
Proof.
  intros He. rewrite !adapter_init_run, !resolve_run. cbn [fst].
  rewrite He. reflexivity.
Qed.

Lemma create_provider_fst (provider_key : string) (config : pyval)
    (p p' : process) :
  environ p' = environ p ->
  fst (SearchProviderFactory.create_provider provider_key config p')
    = fst (SearchProviderFactory.create_provider provider_key config p).
Proof.
  intros He.
  destruct (in_dec string_dec provider_key ["serp"; "tavily"; "you"])
    as [Hk|Hk].
  - destruct (known_key provider_key Hk) as [a ->].
    rewrite !create_provider_known. cbn [fst].
    destruct (SearchProviderFactory.bind_api_key config) as [k|e];
      [|reflexivity].
    unfold mbind, res_mbind, res_bind. apply adapter_init_fst, He.
  - rewrite !create_provider_no_module by exact Hk. reflexivity.
Qed.




Example adapter_built_on_first_search :
  built (snd (SearchClient.search (H := Reference.builtins) 0 "you"
                "cats" [] keyed_process))
  = [("YouSearchProvider", PDict [])].
Proof. vm_compute. reflexivity. Qed.

(** X16.  The same search made twice gives the same outcome twice, results or
    exception alike, as long as upstream answers the same: nothing a search
    leaves behind (the memo of the registry, the adapter it stored, the log
    of calls) changes what the next one returns. *)
Theorem search_twice_same_outcome `{PyBuiltins} (self : loc)
    (spec query : string) (kwargs : dict) (p : process) :
  fst (SearchClient.search self spec query kwargs
         (snd (SearchClient.search self spec query kwargs p)))
  = fst (SearchClient.search self spec query kwargs p).
Proof.
  destruct (partition_colon spec) as [[key sep] sf] eqn:Hpart.
  set (p1 := with_cache (supported_now p) p).
  assert (Hs1 : supported_now p1 = supported_now p) by reflexivity.
  destruct (decide (key ∈ supported_now p)) as [Hin|Hout].
  2:{ rewrite (search_rejects p self spec key sep sf query kwargs Hpart Hout).
      cbn [fst snd]. fold p1.
      rewrite (search_rejects p1 self spec key sep sf query kwargs Hpart)
        by (rewrite Hs1; exact Hout).
      rewrite Hs1. reflexivity. }
  destruct (clients p !! self) as [c|] eqn:Hc.
  2:{ rewrite (search_no_client p self spec key sep sf query kwargs
                 Hpart Hin Hc).
      cbn [fst snd]. fold p1.
      rewrite (search_no_client p1 self spec key sep sf query kwargs Hpart)
        by (try rewrite Hs1; assumption).
      reflexivity. }
  destruct (providers c !! key) as [inst|] eqn:Hinst.
  - rewrite (search_live_run p self c spec key sep sf inst query kwargs
               Hpart Hin Hc Hinst).
    fold p1. set (p' := snd (hand_over inst query sf kwargs p1)).
    assert (Hc' : clients p' !! self = Some c).
    { unfold p'.
      rewrite (preserves_hand_over (fun q => clients q !! self))
        by reflexivity. exact Hc. }
    assert (Hin' : key ∈ supported_now p').
    { rewrite (supported_now_of_cache _ (supported_now p)); [exact Hin|].
      unfold p'. rewrite (preserves_hand_over supported_cache)
        by reflexivity. reflexivity. }
    rewrite (search_live_run p' self c spec key sep sf inst query kwargs
               Hpart Hin' Hc' Hinst).
    apply hand_over_fst. cbn [transport with_cache]. unfold p'.
    apply (preserves_hand_over transport). reflexivity.
  - rewrite (search_build_run p self c spec key sep sf query kwargs
               Hpart Hin Hc Hinst).
    fold p1.
    set (config := default (PDict [])
                     (dict_get key (deref p (provider_configs c)))).
    pose proof (preserves_create_provider clients key config
                  (fun _ _ => eq_refl) p1) as Hcl.
    pose proof (preserves_create_provider supported_cache key config
                  (fun _ _ => eq_refl) p1) as Hca.
    pose proof (preserves_create_provider dicts key config
                  (fun _ _ => eq_refl) p1) as Hdi.
    pose proof (preserves_create_provider environ key config
                  (fun _ _ => eq_refl) p1) as Hen.
    destruct (SearchProviderFactory.create_provider key config p1)
      as [[inst|e] p2] eqn:Ecreate; cbn [snd] in Hcl, Hca, Hdi, Hen.
    + set (p3 := with_clients
                   (alter (store_adapter key inst) self (clients p2)) p2).
      set (p' := snd (hand_over inst query sf kwargs p3)).
      assert (Hc' : clients p' !! self = Some (store_adapter key inst c)).
      { unfold p'.
        rewrite (preserves_hand_over (fun q => clients q !! self))
          by reflexivity.
        unfold p3. cbn [clients with_clients].
        rewrite list_lookup_alter_eq, Hcl.
        change (clients p1) with (clients p). rewrite Hc. reflexivity. }
      assert (Hin' : key ∈ supported_now p').
      { rewrite (supported_now_of_cache _ (supported_now p)); [exact Hin|].
        unfold p'. rewrite (preserves_hand_over supported_cache)
          by reflexivity.
        unfold p3. cbn [supported_cache with_clients]. rewrite Hca.
        reflexivity. }
      assert (Hinst' : providers (store_adapter key inst c) !! key
                       = Some inst).
      { unfold store_adapter. cbn [providers]. apply lookup_insert_eq. }
      rewrite (search_live_run p' self _ spec key sep sf inst query kwargs
                 Hpart Hin' Hc' Hinst').
      apply hand_over_fst. cbn [transport with_cache]. unfold p'.
      apply (preserves_hand_over transport). reflexivity.
    + cbn [fst snd].
      assert (Hc2 : clients p2 !! self = Some c).
      { rewrite Hcl. exact Hc. }
      assert (Hin2 : key ∈ supported_now p2).
      { rewrite (supported_now_of_cache _ (supported_now p)); [exact Hin|].
        rewrite Hca. reflexivity. }
      rewrite (search_build_run p2 self c spec key sep sf query kwargs
                 Hpart Hin2 Hc2 Hinst).
      assert (Hcfg : default (PDict [])
                       (dict_get key (deref p2 (provider_configs c)))
                     = config).
      { unfold config, deref. rewrite Hdi. reflexivity. }
      rewrite Hcfg.
      pose proof (create_provider_fst key config p1
                    (with_cache (supported_now p2) p2)) as Hfst.
      rewrite Ecreate in Hfst. cbn [fst] in Hfst.
      destruct (SearchProviderFactory.create_provider key config
                  (with_cache (supported_now p2) p2)) as [r' p2'].
      cbn [fst] in Hfst. rewrite Hfst; [reflexivity|].
      cbn [environ with_cache]. exact Hen.
Qed.

(** ** The chat answer of the perplexity provider *)

Ltac chat_steps :=
  unfold PerplexityProvider.from_api_response, mbind,
    PerplexityProvider.chat_mbind.

(** X19.  [from_api_response] keeps the first choice only: from an answer whose
    first choice carries a message with content and role, a finish reason
    and an index, the response built has exactly one choice with those four
    values, whatever further choices and other keys the answer holds. *)
Theorem from_api_response_first_choice (d ch m : dict) (rest : list pyval)
    (c r fr i : pyval) :
  dict_get "choices" d = Some (PList (PDict ch :: rest)) ->
  dict_get "message" ch = Some (PDict m) ->
  dict_get "content" m = Some c ->
  dict_get "role" m = Some r ->
  dict_get "finish_reason" ch = Some fr ->
  dict_get "index" ch = Some i ->
  PerplexityProvider.from_api_response (PDict d) =
    PerplexityProvider.Done
      {| PerplexityProvider.choices :=
           [{| PerplexityProvider.message :=
                 {| PerplexityProvider.msg_content := c;
                    PerplexityProvider.role := r |};
               PerplexityProvider.finish_reason := fr;
               PerplexityProvider.index := i |}] |}.
Proof.
  intros Hc Hm Hco Hr Hfr Hi. chat_steps.
  unfold PerplexityProvider.item, PerplexityProvider.first.
  rewrite Hc, Hm, Hco, Hr, Hfr, Hi. reflexivity.
Qed.

Lemma from_api_response_first_choice_witness :
  PerplexityProvider.from_api_response (PDict chat_answer) =
    PerplexityProvider.Done
      {| PerplexityProvider.choices :=
           [{| PerplexityProvider.message :=
                 {| PerplexityProvider.msg_content := PStr "Arr!";
                    PerplexityProvider.role := PStr "assistant" |};
               PerplexityProvider.finish_reason := PStr "stop";
               PerplexityProvider.index := PInt 0 |}] |}.
Proof.
  eapply (from_api_response_first_choice chat_answer); reflexivity.
Defined.

Lemma item_done (v : pyval) (k : string) (x : pyval) :
  PerplexityProvider.item v k = PerplexityProvider.Done x ->
  exists d, v = PDict d /\ dict_get k d = Some x.
Proof.
  unfold PerplexityProvider.item.
  destruct v as [| | | | |d]; try discriminate.
  destruct (dict_get k d) as [y|] eqn:E; [|discriminate].
  intros H. inversion H; subst. eauto.
Qed.

(** X20.  [from_api_response] has no defaults: an answer without [choices]
    raises KeyError, an empty list of choices raises IndexError, and a
    response is returned only when the answer is an object whose first
    choice is an object with a [message] object holding [content] and
    [role], a [finish_reason] and an [index]. *)
Theorem from_api_response_strict (v : pyval) :
  (forall d, v = PDict d -> dict_get "choices" d = None ->
     PerplexityProvider.from_api_response v
       = PerplexityProvider.Fail (PerplexityProvider.Std KeyError)) /\
  (forall d, v = PDict d -> dict_get "choices" d = Some (PList []) ->
     PerplexityProvider.from_api_response v
       = PerplexityProvider.Fail PerplexityProvider.IndexError) /\
  (forall r, PerplexityProvider.from_api_response v
               = PerplexityProvider.Done r ->
     length (PerplexityProvider.choices r) = 1 /\
     exists d ch rest m,
       v = PDict d /\
       dict_get "choices" d = Some (PList (PDict ch :: rest)) /\
       dict_get "message" ch = Some (PDict m) /\
       is_Some (dict_get "content" m) /\ is_Some (dict_get "role" m) /\
       is_Some (dict_get "finish_reason" ch) /\
       is_Some (dict_get "index" ch)).
Proof.
  split; [|split].
  - intros d -> Hd. chat_steps. unfold PerplexityProvider.item.
    rewrite Hd. reflexivity.
  - intros d -> Hd. chat_steps. unfold PerplexityProvider.item.
    rewrite Hd. reflexivity.
  - intros r. chat_steps.
    destruct (PerplexityProvider.item v "choices") as [cs|] eqn:E1;
      [|discriminate].
    destruct (PerplexityProvider.first cs) as [choice|] eqn:E2;
      [|discriminate].
    destruct (PerplexityProvider.item choice "message") as [mv|] eqn:E3;
      [|discriminate].
    destruct (PerplexityProvider.item mv "content") as [c|] eqn:E4;
      [|discriminate].
    destruct (PerplexityProvider.item mv "role") as [ro|] eqn:E5;
      [|discriminate].
    destruct (PerplexityProvider.item choice "finish_reason") as [fr|] eqn:E6;
      [|discriminate].
    destruct (PerplexityProvider.item choice "index") as [i|] eqn:E7;
      [|discriminate].
    intros Hr. inversion Hr; subst r. split; [reflexivity|].
    apply item_done in E1 as (d & -> & Hd).
    apply item_done in E3 as (ch & -> & Hm).
    apply item_done in E4 as (m & -> & Hc).
    apply item_done in E5 as (m' & Em & Hro). inversion Em; subst m'.
    apply item_done in E6 as (ch' & Ech & Hfr). inversion Ech; subst ch'.
    apply item_done in E7 as (ch' & Ech' & Hi). inversion Ech'; subst ch'.
    assert (exists rest, cs = PList (PDict ch :: rest)) as [rest ->].
    { unfold PerplexityProvider.first in E2.
      destruct cs as [| | |s|l|]; try discriminate.
      - destruct s; discriminate.
      - destruct l as [|x l]; [discriminate|].
        inversion E2; subst. eauto. }
    exists d, ch, rest, m. repeat split; eauto.
Qed.

Lemma from_api_response_strict_witness :
  PerplexityProvider.from_api_response (PDict [("choices", PList [])])
    = PerplexityProvider.Fail PerplexityProvider.IndexError /\
  PerplexityProvider.from_api_response (PDict [("error", PStr "quota")])
    = PerplexityProvider.Fail (PerplexityProvider.Std KeyError).
Proof.
  destruct (from_api_response_strict (PDict [("choices", PList [])]))
    as (_ & Hempty & _).
  destruct (from_api_response_strict (PDict [("error", PStr "quota")]))
    as (Hnone & _ & _).
  split; [eapply Hempty|eapply Hnone]; reflexivity.
Defined.

(** X21.  The perplexity provider takes its key from the [api_key] option when
    that is not empty, whatever other options the configuration carries
    (none is rejected), and sends it as the bearer token; with no such
    option and the environment variable unset it raises the ValueError
    about the missing key.  The process is not touched either way. *)
Theorem perplexity_init_key `{PyBuiltins} (config : dict) (p : process) :
  (forall k, dict_get "api_key" config = Some k -> truthy k = true ->
     PerplexityProvider.init config p =
       (Ok [("Authorization", PStr ("Bearer " +:+ py_str k));
            ("Content-Type", PStr "application/json");
            ("Accept", PStr "application/json")], p)) /\
  (dict_get "api_key" config = None ->
   environ p !! "PERPLEXITY_API_KEY" = None ->
   PerplexityProvider.init config p =
     (Raise (ValueError PerplexityProvider.key_missing), p)).
Proof.
  unfold PerplexityProvider.init, getenv. unfold_bind. split.
  - intros k Hk Ht. rewrite Hk. cbn [default from_option id].
    rewrite Ht, Ht. reflexivity.
  - intros Hk He. rewrite Hk, He. reflexivity.
Qed.

Lemma perplexity_init_key_witness :
  PerplexityProvider.init (H := Reference.builtins)
    [("api_key", PStr "pplx-"); ("timeout", PInt 30)] quiet_process =
    (Ok [("Authorization", PStr "Bearer pplx-");
         ("Content-Type", PStr "application/json");
         ("Accept", PStr "application/json")], quiet_process) /\
  PerplexityProvider.init (H := Reference.builtins) [] quiet_process =
    (Raise (ValueError PerplexityProvider.key_missing), quiet_process).
Proof.
  destruct (@perplexity_init_key Reference.builtins
              [("api_key", PStr "pplx-"); ("timeout", PInt 30)]
              quiet_process) as [Hkey _].
  destruct (@perplexity_init_key Reference.builtins [] quiet_process)
    as [_ Hnone].
  split; [apply (Hkey (PStr "pplx-")); reflexivity|].
  apply Hnone; reflexivity.
Defined.

(** ** Network calls of the client *)

Lemma once_after_quiet {A B} (m : M A) (k : A -> M B) :
  preserves wire m -> (forall a, calls_at_most_once (k a)) ->
  calls_at_most_once (m ≫= k).
Proof.
  intros Hm Hk p. unfold mbind, M_bind.
  specialize (Hm p). destruct (m p) as [[a|e] p1]; cbn [snd] in *.
  - destruct (Hk a p1) as (reqs & Hw & Hl). exists reqs.
    rewrite Hw, Hm. auto.
  - exists []. rewrite Hm, app_nil_r. simpl. auto.
Qed.

Lemma quiet_calls_none {A} (m : M A) :
  preserves wire m -> calls_at_most_once m.
Proof.
  intros Hm p. exists []. rewrite (Hm p), app_nil_r. simpl. auto.
Qed.

(** X17.  One search of the client makes at most one network call, whichever
    path it takes: validation, construction of the adapter on demand and
    the hand-over to the adapter together never call upstream twice. *)
Theorem search_calls_at_most_once `{PyBuiltins} (self : loc)
    (spec query : string) (kwargs : dict) (p : process) :
  exists reqs,
    wire (snd (SearchClient.search self spec query kwargs p))
      = (wire p ++ reqs)%list /\
    length reqs <= 1.
Proof.
  revert p.
  change (calls_at_most_once (SearchClient.search self spec query kwargs)).
  unfold SearchClient.search.
  destruct (partition_colon spec) as [[key sep] sf].
  apply once_after_quiet; [apply preserves_validate; reflexivity|].
  intros _. apply once_after_quiet; [apply preserves_this|]. intros c.
  apply once_after_quiet.
  - destruct (providers c !! key); [apply preserves_ret|].
    apply preserves_bind; [apply preserves_gets|]. intros cfgs.
    apply preserves_bind; [apply preserves_create_provider; reflexivity|].
    intros inst p0. reflexivity.
  - intros _. apply once_after_quiet; [apply preserves_this|]. intros c'.
    destruct (providers c' !! key) as [inst|];
      [|apply quiet_calls_none, preserves_raise].
    destruct (dict_get "specific_function" kwargs);
      [apply quiet_calls_none, preserves_raise|].
    intros p0. rewrite provider_search_run. cbn [snd wire with_wire].
    eexists [_]. split; [reflexivity|]. simpl. lia.
Qed.

(** ** The content of a web hit *)

(** X18.  On the you.com web path a description that is not empty is the
    content, and the snippets are then not read at all: whatever stands
    under [snippets], the hit maps to the same result and cannot raise. *)
Theorem description_shadows_snippets (d : dict) (junk : pyval) :
  truthy (field_or_empty "description" d) = true ->
  YouSearchProvider.hit_result (PDict (dict_set "snippets" junk d)) =
    Ok {| title := field_or_empty "title" d;
          url := field_or_empty "url" d;
          content := field_or_empty "description" d;
          source := PStr "you.com" |}.
Proof.
  intros Ht.
  unfold YouSearchProvider.hit_result, YouSearchProvider.hit_content,
    py_or, py_get. unfold_bind.
  rewrite (dict_get_set_ne "snippets" "title") by discriminate.
  rewrite (dict_get_set_ne "snippets" "url") by discriminate.
  rewrite (dict_get_set_ne "snippets" "description") by discriminate.
  change (match dict_get "description" d with
          | Some x => x | None => PStr "" end)
    with (field_or_empty "description" d).
  rewrite Ht. reflexivity.
Qed.

Lemma description_shadows_snippets_witness :
  YouSearchProvider.hit_result
    (PDict (dict_set "snippets" PNone
              [("title", PStr "t"); ("description", PStr "about")])) =
    Ok {| title := PStr "t"; url := PStr ""; content := PStr "about";
          source := PStr "you.com" |}.
Proof.
  exact (description_shadows_snippets
           [("title", PStr "t"); ("description", PStr "about")] PNone
           eq_refl).
Defined.
